(** * Burn scar detection (src/main.py): a shallow embedding

    Python [float] values are IEEE binary64 numbers: they are modelled by
    Rocq's primitive floats, whose literals are read to the nearest binary64
    exactly as Python reads its own, and whose comparisons are those of the
    hardware ([nan] compares false with everything).

    The Earth Engine service is outside the program.  Every call that the
    program evaluates remotely ([getInfo]) is a field of the record
    [EarthEngine]: an answer, or the exception the client library raises. *)

From Stdlib Require Import Floats ZArith List Bool String Lia.
Import ListNotations.

Set Warnings "-inexact-float,-register-all".

Local Open Scope string_scope.
Local Open Scope float_scope.

(** * Part I: the program *)

(** ** Python built-ins on numbers *)

(** [float(n)] for an integer [n]: the nearest binary64, ties to even. *)
Definition float_of_Z (z : Z) : float :=
  SF2Prim (binary_normalize prec emax z 0 false).

(** The integer nearest to [num / den] ([den > 0]), ties to the even one. *)
Definition round_half_even (num den : Z) : Z :=
  let (q, r) := Z.div_eucl num den in
  match (2 * r ?= den)%Z with
  | Lt => q
  | Gt => (q + 1)%Z
  | Eq => if Z.even q then q else (q + 1)%Z
  end.

(** The binary64 nearest to the decimal number [k / 10^ndigits] with sign
    [s]: what Python's reader makes of the decimal literal.  The quotient of
    the two exact integers is rounded once, by the IEEE division of the
    Standard Library's specification. *)
Definition decimal_float (s : bool) (k : Z) (ndigits : nat) : float :=
  match k with
  | Zpos p =>
      SF2Prim (SFdiv prec emax (S754_finite s p 0)
                 (S754_finite false (Z.to_pos (10 ^ Z.of_nat ndigits)) 0))
  | _ => SF2Prim (S754_zero s)
  end.

(** [round(x, ndigits)] on a float, [ndigits >= 0]: the exact value of [x]
    is rounded to [ndigits] decimals, ties to even, and the decimal result is
    read back as a binary64.  Zeros, infinities and [nan] round to
    themselves; so does a number that already has at most [ndigits]
    decimals. *)
Definition py_round (x : float) (ndigits : nat) : float :=
  match Prim2SF x with
  | S754_finite s m e =>
      match e with
      | Zneg sh =>
          let num := (Zpos m * 10 ^ Z.of_nat ndigits)%Z in
          let den := Zpos (Pos.pow 2 sh) in
          if (num mod den =? 0)%Z then x
          else decimal_float s (round_half_even num den) ndigits
      | _ => x
      end
  | _ => x
  end.

(** The loop of [max(iterable)]: an item replaces the running maximum when
    [item > maximum]. *)
Fixpoint py_max_from (maxitem : float) (items : list float) : float :=
  match items with
  | [] => maxitem
  | item :: rest => py_max_from (if maxitem <? item then item else maxitem) rest
  end.

(** [max(items, default=default)]. *)
Definition py_max (items : list float) (default : float) : float :=
  match items with
  | [] => default
  | item :: rest => py_max_from item rest
  end.

(** Truth value of an optional string ([None] and [""] are false). *)
Definition truthy_str (s : option string) : bool :=
  match s with
  | Some (String _ _) => true
  | _ => false
  end.

(** ** Configuration *)

Definition LATEST_VALID_LANDCOVER_YEAR : Z := 2023.

(** ** Severity classification *)

(** The strings returned by [get_burn_severity]. *)
Inductive Severity : Type :=
| Unknown
| VeryHighSeverity
| HighSeverity
| ModerateSeverity
| LowSeverity
| UnburnedOrRegrowth.

Definition severity_label (s : Severity) : string :=
  match s with
  | Unknown => "Unknown"
  | VeryHighSeverity => "Very High Severity"
  | HighSeverity => "High Severity"
  | ModerateSeverity => "Moderate Severity"
  | LowSeverity => "Low Severity"
  | UnburnedOrRegrowth => "Unburned or Regrowth"
  end.

(** The five levels of the documented severity scale. *)
Definition documented_levels : list Severity :=
  [VeryHighSeverity; HighSeverity; ModerateSeverity; LowSeverity;
   UnburnedOrRegrowth].

(** [get_burn_severity(dnbr_value)]; the argument [None] is Python's
    [None]. *)
Definition get_burn_severity (dnbr_value : option float) : Severity :=
  match dnbr_value with
  | None => Unknown
  | Some v =>
      if 0.66 <=? v then VeryHighSeverity
      else if 0.44 <=? v then HighSeverity
      else if 0.27 <=? v then ModerateSeverity
      else if 0.10 <=? v then LowSeverity
      else UnburnedOrRegrowth
  end.

(** ** Values exchanged with the outside *)

(** JSON values (GeoJSON geometries, the request's [roi] dictionary). *)
Inductive json : Type :=
| JNull
| JBool (b : bool)
| JNum (x : float)
| JStr (s : string)
| JArr (items : list json)
| JObj (fields : list (string * json)).

Definition dict := list (string * json).

(** [d.get(key)]: [None] when the key is absent. *)
Fixpoint dict_get (key : string) (d : dict) : option json :=
  match d with
  | [] => None
  | (k, v) :: rest => if String.eqb k key then Some v else dict_get key rest
  end.

(** Truth value of an optional dictionary ([None] and [{}] are false). *)
Definition truthy_dict (d : option dict) : bool :=
  match d with
  | Some (_ :: _) => true
  | _ => false
  end.

(** Exceptions the program raises or receives. *)
Inductive exn : Type :=
| HTTPException (status_code : Z) (detail : string)
| EEException (msg : string)
| KeyError (key : string)
| TypeError (msg : string)
| OtherException (msg : string).

(** A computation that returns or raises. *)
Inductive result (A : Type) : Type :=
| Return (a : A)
| Raise (e : exn).

Arguments Return {A} a.
Arguments Raise {A} e.

Definition bind {A B : Type} (m : result A) (k : A -> result B) : result B :=
  match m with
  | Return a => k a
  | Raise e => Raise e
  end.

Notation "x <- m ;; k" := (bind m (fun x => k))
  (at level 61, m at next level, right associativity).

(** [d[key]]: raises [KeyError] when the key is absent. *)
Definition dict_getitem (key : string) (d : dict) : result json :=
  match dict_get key d with
  | Some v => Return v
  | None => Raise (KeyError key)
  end.

(** ** The Earth Engine service *)

(** A pixel of the analysis grid. *)
Definition Pixel : Type := (Z * Z)%type.

(** A one-band raster: [None] where the pixel is masked (no data). *)
Definition Raster : Type := Pixel -> option float.

(** A raster of truth values, as the comparison and logical operators of
    Earth Engine produce; [None] where the pixel is masked. *)
Definition MaskRaster : Type := Pixel -> option bool.

(** A land-cover classification: the class code [LC_Type1] of each pixel. *)
Definition LandCover : Type := Pixel -> option Z.

(** The three-band analysis image ([dNBR], [BAI], [dNDVI]); [None] where a
    band is masked, so that the sampler (which drops nulls) skips the
    pixel. *)
Definition AnalysisImage : Type := Pixel -> option (float * float * float).

(** A region on the server: built from a GeoJSON geometry, or the geometry
    of a feature collection. *)
Inductive Geometry : Type :=
| GeometryOfJson (g : json)
| CollectionGeometry (features : list json).

(** One image of the Sentinel-2 archive. *)
Record S2Image : Type := {
  system_time_start : Z;
  CLOUDY_PIXEL_PERCENTAGE : float;
  band : string -> Pixel -> option Z
}.

(** A composite: the reflectance of each band at each pixel. *)
Definition Composite : Type := string -> Raster.

(** A property of a sampled feature as [props.get] sees it: the key is
    absent, holds JSON [null], or holds a number. *)
Inductive prop_value : Type :=
| Missing
| Null
| Num (x : float).

(** One feature of [hotspots_info['features']]: a point
    ([coordinates = [longitude, latitude]]) and its properties. *)
Record Feature : Type := {
  coord_longitude : float;
  coord_latitude : float;
  prop_dNBR : prop_value;
  prop_BAI : prop_value;
  prop_dNDVI : prop_value
}.

(** What the program asks of Earth Engine.  Dates are milliseconds since
    the epoch. *)
Record EarthEngine : Type := {
  (** [ee.Geometry(geojson)] *)
  ee_Geometry : json -> result Geometry;
  (** [ee.Date(s)], evaluated *)
  ee_Date : string -> result Z;
  (** [date.get('year').getInfo()] *)
  date_year : Z -> result Z;
  (** the geometries of the features of [FAO/GAUL/2015/level2] whose
      [ADM1_NAME] and [ADM2_NAME] are the two names *)
  gaul_level2 : string -> string -> result (list json);
  (** the images of [COPERNICUS/S2_SR_HARMONIZED] that meet the region
      ([filterBounds]), as the service lists them when a subset is
      evaluated *)
  s2_images : Geometry -> result (list S2Image);
  (** what the service finds when it evaluates the first image of
      [MODIS/061/MCD12Q1] for the calendar year: the image, none, or a
      fault *)
  mcd12q1 : Z -> result (option LandCover);
  (** [collection.median()] of the cloud-masked images *)
  median : list Composite -> Composite;
  (** [image.normalizedDifference([b1, b2])] *)
  normalizedDifference : Composite -> string -> string -> Raster;
  (** [image.sample(region, scale, numPixels, geometries=True,
      dropNulls=True, tileScale).getInfo()['features']] *)
  sample : AnalysisImage -> Geometry -> Z -> Z -> Z -> result (list Feature)
}.

(** *** Collection filters *)

(** [collection.filter(ee.Filter.lt('CLOUDY_PIXEL_PERCENTAGE', bound))] *)
Definition filter_cloud (bound : float) (images : list S2Image)
  : list S2Image :=
  filter (fun image => CLOUDY_PIXEL_PERCENTAGE image <? bound) images.

(** [collection.filterDate(from, to)]: the start is included, the end is
    not. *)
Definition filterDate (from to : Z) (images : list S2Image) : list S2Image :=
  filter (fun image =>
            ((from <=? system_time_start image) &&
             (system_time_start image <? to))%Z) images.

(** The subset of the archive that a run evaluates: the images of the
    region under the cloud bound, between the two dates. *)
Definition s2_sr_harmonized (gee : EarthEngine) (region : Geometry)
    (cloud : float) (from to : Z) : result (list S2Image) :=
  images <- s2_images gee region ;;
  Return (filterDate from to (filter_cloud cloud images)).

(** *** Raster operators *)

(** [a.subtract(b)] *)
Definition subtract (a b : Raster) : Raster :=
  fun p =>
    match a p, b p with
    | Some x, Some y => Some (x - y)
    | _, _ => None
    end.

(** [r.gt(c)]: true where the value exceeds [c]. *)
Definition gt (r : Raster) (c : float) : MaskRaster :=
  fun p =>
    match r p with
    | Some v => Some (c <? v)
    | None => None
    end.

(** [a.And(b)] *)
Definition And (a b : MaskRaster) : MaskRaster :=
  fun p =>
    match a p, b p with
    | Some x, Some y => Some (x && y)
    | _, _ => None
    end.

(** [a.Or(b)] *)
Definition Or (a b : MaskRaster) : MaskRaster :=
  fun p =>
    match a p, b p with
    | Some x, Some y => Some (x || y)
    | _, _ => None
    end.

(** [lc.eq(code)] *)
Definition eq_code (lc : LandCover) (code : Z) : MaskRaster :=
  fun p =>
    match lc p with
    | Some c => Some (c =? code)%Z
    | None => None
    end.

(** [m.selfMask()]: pixels whose value is false become masked. *)
Definition selfMask (m : MaskRaster) : MaskRaster :=
  fun p =>
    match m p with
    | Some true => Some true
    | _ => None
    end.

(** [dnbr.addBands(bai).addBands(dndvi)] *)
Definition addBands3 (a b c : Raster) : AnalysisImage :=
  fun p =>
    match a p, b p, c p with
    | Some x, Some y, Some z => Some (x, y, z)
    | _, _, _ => None
    end.

(** [image.updateMask(m)]: a pixel is kept where the mask is true. *)
Definition updateMask (image : AnalysisImage) (m : MaskRaster) : AnalysisImage :=
  fun p =>
    match m p with
    | Some true => image p
    | _ => None
    end.

(** [date.advance(delta, 'day')] *)
Definition ms_per_day : Z := 86400000.

Definition advance_day (delta : Z) (date : Z) : Z :=
  (date + delta * ms_per_day)%Z.

(** ** The pipeline *)

(** [mask_s2_clouds(image)]: a pixel is kept when bits 10 (cloud) and 11
    (cirrus) of [QA60] are both unset; the bands are divided by 10000. *)
Definition cloud_bit_mask : Z := Z.shiftl 1 10.
Definition cirrus_bit_mask : Z := Z.shiftl 1 11.

Definition mask_s2_clouds (image : S2Image) : Composite :=
  fun b p =>
    match band image "QA60" p with
    | Some qa =>
        if ((Z.land qa cloud_bit_mask =? 0) && (Z.land qa cirrus_bit_mask =? 0))%Z
        then match band image b p with
             | Some v => Some (float_of_Z v / 10000)
             | None => None
             end
        else None
    | None => None
    end.

(** [calculate_bai(image)]; the squares [(...)**2] are written as
    products. *)
Definition calculate_bai (image : Composite) : Raster :=
  fun p =>
    match image "B4" p, image "B8" p with
    | Some RED, Some NIR =>
        Some (1.0 / ((0.1 - RED) * (0.1 - RED) + (0.06 - NIR) * (0.06 - NIR)))
    | _, _ => None
    end.

(** An image that the client has described and the service has not yet
    evaluated: evaluation gives the image or raises. *)
Definition Lazy (A : Type) : Type := result A.

(** [ee.ImageCollection("MODIS/061/MCD12Q1").filter(...).first()]: the
    client only describes the image.  It asks nothing of the service, so it
    returns a description whatever the dataset holds, never [None], and raises
    nothing; a year without image shows when the description is evaluated. *)
Definition mcd12q1_first (gee : EarthEngine) (year : Z)
  : result (option (Lazy LandCover)) :=
  Return (Some
    match mcd12q1 gee year with
    | Return (Some landcover) => Return landcover
    | Return None =>
        Raise (EEException
                 "Image.select: Parameter 'input' is required and may not be null.")
    | Raise e => Raise e
    end).

(** The cropland pixels of a land cover: classes 12 and 14, the others
    masked. *)
Definition cropland_mask (landcover : LandCover) : MaskRaster :=
  selfMask (Or (eq_code landcover 12) (eq_code landcover 14)).

(** [get_agricultural_mask(year)] *)
Definition get_agricultural_mask (gee : EarthEngine) (year : Z)
  : option (Lazy MaskRaster) :=
  match mcd12q1_first gee year with
  | Return (Some landcover) =>
      Some (lc <- landcover ;; Return (cropland_mask lc))
  | Return None => None
  | Raise _ => None
  end.

(** What the agricultural mask is when the analysis image is evaluated. *)
Definition evaluate_mask (agri_mask : option (Lazy MaskRaster))
  : result (option MaskRaster) :=
  match agri_mask with
  | None => Return None
  | Some described => agri <- described ;; Return (Some agri)
  end.

(** The thresholds of the triple check. *)
Definition dnbr_threshold : float := 0.10.
Definition bai_threshold : float := 89.
Definition dndvi_threshold : float := 0.2.

(** [burn_mask] of [extract_burn_scars_s2]. *)
Definition burn_mask (dnbr bai dndvi : Raster) : MaskRaster :=
  And (And (gt dnbr dnbr_threshold) (gt bai bai_threshold))
      (gt dndvi dndvi_threshold).

(** [final_mask]: the burn mask alone when there is no agricultural mask. *)
Definition final_mask (burn : MaskRaster) (agri_mask : option MaskRaster)
  : MaskRaster :=
  match agri_mask with
  | None => burn
  | Some agri => And burn agri
  end.

(** [analysis_image]: the three indices under the final mask. *)
Definition analysis_image (dnbr bai dndvi : Raster)
    (agri_mask : option MaskRaster) : AnalysisImage :=
  updateMask (addBands3 dnbr bai dndvi)
             (final_mask (burn_mask dnbr bai dndvi) agri_mask).

(** The year for which the agricultural mask is requested. *)
Definition agri_mask_year (analysis_year : Z) : Z :=
  Z.min analysis_year LATEST_VALID_LANDCOVER_YEAR.

(** The two date windows: (pre-fire start, pre-fire end) and (post-fire
    start, post-fire end). *)
Definition fire_windows (post_fire_start post_fire_end : Z)
  : (Z * Z) * (Z * Z) :=
  let pre_fire_start := advance_day (-60) post_fire_start in
  let pre_fire_end := advance_day (-15) post_fire_start in
  ((pre_fire_start, pre_fire_end), (post_fire_start, post_fire_end)).

(** One detection. *)
Record Hotspot : Type := {
  id : nat;
  latitude : float;
  longitude : float;
  dnbr : float;
  bai : float;
  dndvi : float;
  severity : Severity
}.

(** [props.get(key, 0)]: [Some] of a number, or [None] for JSON [null]. *)
Definition props_get (v : prop_value) : option float :=
  match v with
  | Missing => Some 0
  | Null => None
  | Num x => Some x
  end.

(** [round(value, ndigits)] on what [props.get] returned: [None] is a
    [TypeError]. *)
Definition round_prop (v : option float) (ndigits : nat) : result float :=
  match v with
  | Some x => Return (py_round x ndigits)
  | None => Raise (TypeError "type NoneType doesn't define __round__ method")
  end.

(** The body of the loop over the sampled features. *)
Definition hotspot_of_feature (i : nat) (feature : Feature) : result Hotspot :=
  let dnbr_value := props_get (prop_dNBR feature) in
  let severity_level := get_burn_severity dnbr_value in
  d <- round_prop dnbr_value 3 ;;
  b <- round_prop (props_get (prop_BAI feature)) 2 ;;
  v <- round_prop (props_get (prop_dNDVI feature)) 3 ;;
  Return {| id := i + 1;
            latitude := coord_latitude feature;
            longitude := coord_longitude feature;
            dnbr := d; bai := b; dndvi := v;
            severity := severity_level |}.

(** [for i, feature in enumerate(features)], from index [i]. *)
Fixpoint all_hotspots_from (i : nat) (features : list Feature)
  : result (list Hotspot) :=
  match features with
  | [] => Return []
  | feature :: rest =>
      h <- hotspot_of_feature i feature ;;
      hs <- all_hotspots_from (S i) rest ;;
      Return (h :: hs)
  end.

(** The parameters of the sampling call. *)
Definition sample_scale : Z := 20.
Definition numPixels : Z := 20000.
Definition tileScale : Z := 4.

(** The three index rasters of the two composites: dNBR, BAI, dNDVI. *)
Definition index_rasters (gee : EarthEngine)
    (pre_fire_collection post_fire_collection : list S2Image)
  : Raster * Raster * Raster :=
  let pre_fire_img := median gee (map mask_s2_clouds pre_fire_collection) in
  let post_fire_img := median gee (map mask_s2_clouds post_fire_collection) in
  let dnbr_r := subtract (normalizedDifference gee pre_fire_img "B8" "B12")
                         (normalizedDifference gee post_fire_img "B8" "B12") in
  let dndvi_r := subtract (normalizedDifference gee pre_fire_img "B8" "B4")
                          (normalizedDifference gee post_fire_img "B8" "B4") in
  let bai_r := calculate_bai post_fire_img in
  (dnbr_r, bai_r, dndvi_r).

(** The [try] block of [extract_burn_scars_s2] once the two subsets are
    known.  The agricultural mask is evaluated with the analysis image, when
    the sample is asked for. *)
Definition analyse_collections (gee : EarthEngine) (roi_geometry : Geometry)
    (post_fire_start : Z)
    (pre_fire_collection post_fire_collection : list S2Image)
  : result (list Hotspot) :=
  let pre_count := List.length pre_fire_collection in
  let post_count := List.length post_fire_collection in
  if (pre_count =? 0)%nat || (post_count =? 0)%nat then Return []
  else
    let '(dnbr_r, bai_r, dndvi_r) :=
      index_rasters gee pre_fire_collection post_fire_collection in
    analysis_year <- date_year gee post_fire_start ;;
    let agri_mask := get_agricultural_mask gee (agri_mask_year analysis_year) in
    agri <- evaluate_mask agri_mask ;;
    features <-
      sample gee (analysis_image dnbr_r bai_r dndvi_r agri) roi_geometry
             sample_scale numPixels tileScale ;;
    all_hotspots_from 0 features.

(** The [try] block of [extract_burn_scars_s2]. *)
Definition extract_burn_scars_s2_try (gee : EarthEngine)
    (roi_geometry : Geometry) (start_date_str end_date_str : string)
  : result (list Hotspot) :=
  post_fire_start <- ee_Date gee start_date_str ;;
  post_fire_end <- ee_Date gee end_date_str ;;
  let '((pre_fire_start, pre_fire_end), (post_start, post_end)) :=
    fire_windows post_fire_start post_fire_end in
  pre_fire_collection <-
    s2_sr_harmonized gee roi_geometry 40 pre_fire_start pre_fire_end ;;
  post_fire_collection <-
    s2_sr_harmonized gee roi_geometry 40 post_start post_end ;;
  analyse_collections gee roi_geometry post_fire_start
    pre_fire_collection post_fire_collection.

(** [extract_burn_scars_s2]: every exception of the [try] block is caught
    and turned into the empty list. *)
Definition extract_burn_scars_s2 (gee : EarthEngine)
    (roi_geometry : Geometry) (start_date_str end_date_str : string)
  : list Hotspot :=
  match extract_burn_scars_s2_try gee roi_geometry start_date_str end_date_str with
  | Return all_hotspots => all_hotspots
  | Raise _ => []
  end.

(** ** The orchestration and the API *)

Record FireDetectionRequest : Type := {
  start_date : string;
  end_date : string;
  state : option string;
  district : option string;
  roi : option dict
}.

(** The dictionary returned by [get_district_boundary], by its ['status']. *)
Inductive BoundaryInfo : Type :=
| BoundarySuccess (boundary_geojson : json) (geometry : Geometry)
| BoundaryNotFound
| BoundaryError (e : exn).

(** [get_district_boundary(state, district)] *)
Definition get_district_boundary (gee : EarthEngine) (state_name district_name : string)
  : BoundaryInfo :=
  match gaul_level2 gee state_name district_name with
  | Return [] => BoundaryNotFound
  | Return (first :: others) =>
      BoundarySuccess first (CollectionGeometry (first :: others))
  | Raise e => BoundaryError e
  end.

(** The global [current_fire_data]. *)
Record FireData : Type := {
  hotspots : list Hotspot;
  fd_state : string;
  fd_district : string;
  date_range : string
}.

Definition initial_fire_data : FireData :=
  {| hotspots := []; fd_state := ""; fd_district := ""; date_range := "" |}.

(** A point feature of [hotspots_geojson]: its coordinates
    [[longitude, latitude]] and the detection as its properties. *)
Record PointFeature : Type := {
  point_coordinates : float * float;
  properties : Hotspot
}.

(** The dictionary returned on success (['status'] is ['Success']). *)
Record DetectionResult : Type := {
  fire_hotspots : nat;
  fire_area_hectares : float;
  max_dnbr : float;
  hotspots_geojson : list PointFeature;
  boundary_geojson : json
}.

(** What [run_fire_detection] returns: the success dictionary, or the
    dictionary of the [except] clause, whose ['status'] is ['Error: '] followed
    by the text of the exception, with [fire_hotspots] 0 and no feature. *)
Inductive DetectionResponse : Type :=
| Success (r : DetectionResult)
| Error (e : exn).

(** The region of the request: the geometry, the boundary to display and
    the two names.  The first branch is taken whenever [request.roi] is true,
    whatever [state] and [district] hold. *)
Definition resolve_region (gee : EarthEngine) (request : FireDetectionRequest)
  : result (Geometry * json * string * string) :=
  if truthy_dict (roi request) then
    match roi request with
    | Some d =>
        g <- dict_getitem "geometry" d ;;
        roi_geometry <- ee_Geometry gee g ;;
        Return (roi_geometry, g, "Custom", "ROI")
    | None => Raise (TypeError "NoneType object is not subscriptable")
    end
  else if truthy_str (state request) && truthy_str (district request) then
    match state request, district request with
    | Some st, Some di =>
        match get_district_boundary gee st di with
        | BoundarySuccess geojson geometry => Return (geometry, geojson, st, di)
        | _ => Raise (HTTPException 404 "District not found")
        end
    | _, _ => Raise (HTTPException 404 "District not found")
    end
  else
    Raise (HTTPException 400
             "Either a state/district or a custom ROI must be provided.").

(** [round(len(hotspots) * 0.04, 2)] *)
Definition area_hectares (count : nat) : float :=
  py_round (float_of_Z (Z.of_nat count) * 0.04) 2.

(** The [try] block of [run_fire_detection]: the new [current_fire_data]
    and the success dictionary. *)
Definition run_fire_detection_try (gee : EarthEngine)
    (request : FireDetectionRequest) : result (FireData * DetectionResult) :=
  region <- resolve_region gee request ;;
  let '(roi_geometry, boundary, state_name, district_name) := region in
  let found :=
    extract_burn_scars_s2 gee roi_geometry (start_date request) (end_date request) in
  let maximum := py_max (map dnbr found) 0.0 in
  let current :=
    {| hotspots := found; fd_state := state_name; fd_district := district_name;
       date_range := start_date request ++ " to " ++ end_date request |} in
  let features :=
    map (fun spot =>
           {| point_coordinates := (longitude spot, latitude spot);
              properties := spot |}) found in
  Return (current,
          {| fire_hotspots := List.length found;
             fire_area_hectares := area_hectares (List.length found);
             max_dnbr := maximum;
             hotspots_geojson := features;
             boundary_geojson := boundary |}).

(** [run_fire_detection(request)] with the global [current_fire_data]
    threaded through: [except Exception] catches every exception of the
    [try] block, [HTTPException] included. *)
Definition run_fire_detection (gee : EarthEngine)
    (current_fire_data : FireData) (request : FireDetectionRequest)
  : FireData * DetectionResponse :=
  match run_fire_detection_try gee request with
  | Return (current, r) => (current, Success r)
  | Raise e => (current_fire_data, Error e)
  end.

(** What an endpoint gives the HTTP client: a body with status 200, or the
    error response that the framework makes of an [HTTPException] that leaves
    the endpoint. *)
Inductive HttpResponse (A : Type) : Type :=
| Http200 (body : A)
| HttpError (status_code : Z) (detail : string).

Arguments Http200 {A} body.
Arguments HttpError {A} status_code detail.

(** Whether a JSON value can be written: the framework writes the response
    with [allow_nan=False], which refuses [nan] and the infinities. *)
Fixpoint json_compliant (j : json) : bool :=
  match j with
  | JNum x => is_finite x
  | JArr items => forallb json_compliant items
  | JObj fields =>
      forallb (fun field => match field with (_, v) => json_compliant v end)
              fields
  | _ => true
  end.

Definition spot_compliant (spot : Hotspot) : bool :=
  is_finite (latitude spot) && is_finite (longitude spot) &&
  is_finite (dnbr spot) && is_finite (bai spot) && is_finite (dndvi spot).

(** Whether the dictionary returned by [run_fire_detection] can be written
    as JSON. *)
Definition response_compliant (response : DetectionResponse) : bool :=
  match response with
  | Success r =>
      is_finite (fire_area_hectares r) && is_finite (max_dnbr r) &&
      forallb (fun feature =>
                 is_finite (fst (point_coordinates feature)) &&
                 is_finite (snd (point_coordinates feature)) &&
                 spot_compliant (properties feature))
              (hotspots_geojson r) &&
      json_compliant (boundary_geojson r)
  | Error _ => true
  end.

(** [POST /api/detect-fires] on a request that the framework has parsed:
    the dictionary is sent with status 200, or the framework answers 500
    when it cannot be written as JSON. *)
Definition detect_fire_api (gee : EarthEngine) (current_fire_data : FireData)
    (request : FireDetectionRequest)
  : FireData * HttpResponse DetectionResponse :=
  let (current, response) := run_fire_detection gee current_fire_data request in
  if response_compliant response then (current, Http200 response)
  else (current, HttpError 500 "Internal Server Error").

(** A cell of the CSV file. *)
Inductive Cell : Type :=
| CellStr (s : string)
| CellInt (n : nat)
| CellNum (x : float).

Definition csv_header : list Cell :=
  [CellStr "ID"; CellStr "Latitude"; CellStr "Longitude"; CellStr "Severity";
   CellStr "dNBR"; CellStr "BAI"; CellStr "dNDVI"].

(** The keys read from each detection, in order. *)
Definition csv_keys : list string :=
  ["id"; "latitude"; "longitude"; "severity"; "dnbr"; "bai"; "dndvi"].

(** [spot.get(k)] on a detection. *)
Definition spot_get (spot : Hotspot) (k : string) : option Cell :=
  if String.eqb k "id" then Some (CellInt (id spot))
  else if String.eqb k "latitude" then Some (CellNum (latitude spot))
  else if String.eqb k "longitude" then Some (CellNum (longitude spot))
  else if String.eqb k "severity" then Some (CellStr (severity_label (severity spot)))
  else if String.eqb k "dnbr" then Some (CellNum (dnbr spot))
  else if String.eqb k "bai" then Some (CellNum (bai spot))
  else if String.eqb k "dndvi" then Some (CellNum (dndvi spot))
  else None.

(** The row written for a detection ([None] would be an empty cell). *)
Definition csv_row (spot : Hotspot) : list (option Cell) :=
  map (spot_get spot) csv_keys.

(** The CSV response: the header, the rows and the file name. *)
Record CsvExport : Type := {
  header : list Cell;
  rows : list (list (option Cell));
  filename : string
}.

(** [GET /api/export-csv] *)
Definition export_csv_api (current_fire_data : FireData) : HttpResponse CsvExport :=
  match hotspots current_fire_data with
  | [] => HttpError 404 "No data available to export"
  | _ :: _ =>
      Http200 {| header := csv_header;
                 rows := map csv_row (hotspots current_fire_data);
                 filename := "S2_BurnScars_" ++ fd_state current_fire_data ++ "_"
                             ++ fd_district current_fire_data ++ "_"
                             ++ date_range current_fire_data ++ ".csv" |}
  end.

(** ** An order key for binary64 numbers

    Every number other than [nan] gets a triple of integers whose
    lexicographic order is the order of the numbers: the class (infinities,
    negative, zero, positive), then the exponent and the mantissa, both
    negated for negative numbers.  [nan] gets no key. *)

Definition Key : Type := (Z * Z * Z)%type.

Definition sf_key (x : spec_float) : option Key :=
  match x with
  | S754_nan => None
  | S754_infinity true => Some (-2, 0, 0)%Z
  | S754_infinity false => Some (2, 0, 0)%Z
  | S754_zero _ => Some (0, 0, 0)%Z
  | S754_finite true m e => Some (-1, - e, Zneg m)%Z
  | S754_finite false m e => Some (1, e, Zpos m)%Z
  end.

Definition key_compare (a b : Key) : comparison :=
  let '(a1, a2, a3) := a in
  let '(b1, b2, b3) := b in
  match (a1 ?= b1)%Z with
  | Eq => match (a2 ?= b2)%Z with
          | Eq => (a3 ?= b3)%Z
          | c => c
          end
  | c => c
  end.

Definition key_lt (a b : Key) : Prop :=
  let '(a1, a2, a3) := a in
  let '(b1, b2, b3) := b in
  (a1 < b1 \/ (a1 = b1 /\ (a2 < b2 \/ (a2 = b2 /\ a3 < b3))))%Z.

Definition float_key (x : float) : option Key := sf_key (Prim2SF x).

(** ** The criteria of the triple check, pixel by pixel *)

(** The raster [r] is defined at [p] and its value exceeds [c]. *)
Definition exceeds (r : Raster) (c : float) (p : Pixel) : Prop :=
  exists v, r p = Some v /\ (c <? v) = true.

(** The pixel can be sampled: it is not masked in the image. *)
Definition candidate (image : AnalysisImage) (p : Pixel) : Prop :=
  exists v, image p = Some v.

(** The service with another answer of the image archive. *)
Definition with_archive (gee : EarthEngine)
    (archive : Geometry -> result (list S2Image))
  : EarthEngine :=
  {| ee_Geometry := ee_Geometry gee;
     ee_Date := ee_Date gee;
     date_year := date_year gee;
     gaul_level2 := gaul_level2 gee;
     s2_images := archive;
     mcd12q1 := mcd12q1 gee;
     median := median gee;
     normalizedDifference := normalizedDifference gee;
     sample := sample gee |}.

(** The service with another answer of the land-cover dataset. *)
Definition with_landcover (gee : EarthEngine)
    (landcover : Z -> result (option LandCover)) : EarthEngine :=
  {| ee_Geometry := ee_Geometry gee;
     ee_Date := ee_Date gee;
     date_year := date_year gee;
     gaul_level2 := gaul_level2 gee;
     s2_images := s2_images gee;
     mcd12q1 := landcover;
     median := median gee;
     normalizedDifference := normalizedDifference gee;
     sample := sample gee |}.

(** The request with another state and district. *)
Definition with_names (request : FireDetectionRequest)
    (st di : option string) : FireDetectionRequest :=
  {| start_date := start_date request;
     end_date := end_date request;
     state := st;
     district := di;
     roi := roi request |}.

(** ** Checking the area of every count up to the sampling bound *)

(** The area computed for [count] detections is the binary64 nearest to the
    decimal number [count * 0.04], that is [4 * count / 100]. *)
Definition area_exact (count : Z) : bool :=
  PrimFloat.Leibniz.eqb
    (py_round (float_of_Z count * 0.04) 2)
    (decimal_float false (4 * count) 2).

(** [area_exact] on [count], [count + 1], ..., [count + n - 1]. *)
Fixpoint area_exact_from (n : nat) (count : Z) : bool :=
  match n with
  | O => true
  | S k => area_exact count && area_exact_from k (count + 1)
  end.

(** ** Reading requests and responses *)

(** The request says where to look in both ways: a region drawn by the user,
    and a state with a district. *)
Definition both_set (request : FireDetectionRequest) : bool :=
  truthy_dict (roi request) &&
  (truthy_str (state request) && truthy_str (district request)).

(** The request says where to look in neither way. *)
Definition neither_set (request : FireDetectionRequest) : bool :=
  negb (truthy_dict (roi request)) &&
  negb (truthy_str (state request) && truthy_str (district request)).

(** The response reports a rejected request. *)
Definition rejected (response : DetectionResponse) : Prop :=
  match response with
  | Error (HTTPException _ _) => True
  | _ => False
  end.

(** ** A small world on which the program can be run *)

Module Demo.

(** 2023-11-01 and 2023-11-15, in milliseconds since the epoch. *)
Definition nov_01 : Z := 1698796800000.
Definition nov_15 : Z := 1700006400000.

Definition polygon : json :=
  JObj [("type", JStr "Polygon");
        ("coordinates",
         JArr [JArr [JArr [JNum 75.8; JNum 30.8]; JArr [JNum 75.9; JNum 30.8];
                     JArr [JNum 75.9; JNum 30.9]; JArr [JNum 75.8; JNum 30.8]]])].

(** Before the fire: vegetation everywhere. *)
Definition pre_image : S2Image :=
  {| system_time_start := advance_day (-30) nov_01;
     CLOUDY_PIXEL_PERCENTAGE := 5;
     band := fun b _ =>
       if String.eqb b "QA60" then Some 0%Z
       else if String.eqb b "B4" then Some 800%Z
       else if String.eqb b "B8" then Some 4000%Z
       else if String.eqb b "B12" then Some 1500%Z
       else None |}.

(** After the fire: the column [0] of the grid is burnt, the rest is
    unchanged; the row [2] is under cloud. *)
Definition post_image : S2Image :=
  {| system_time_start := advance_day 3 nov_01;
     CLOUDY_PIXEL_PERCENTAGE := 12;
     band := fun b p =>
       if String.eqb b "QA60" then Some (if (snd p =? 2)%Z then 1024%Z else 0%Z)
       else if (fst p =? 0)%Z then
         if String.eqb b "B4" then Some 1000%Z
         else if String.eqb b "B8" then Some 1200%Z
         else if String.eqb b "B12" then Some (if (snd p =? 0)%Z then 2400%Z else 1300%Z)
         else None
       else band pre_image b p |}.

(** The pixels the sampler visits, and the feature it returns for a pixel
    that is not masked. *)
Definition visited : list Pixel := [(0, 0); (1, 0); (0, 1); (0, 2)]%Z.

Definition feature_at (image : AnalysisImage) (p : Pixel) : list Feature :=
  match image p with
  | Some (d, b, v) =>
      [{| coord_longitude := 75.8 + float_of_Z (fst p) / 1000;
          coord_latitude := 30.8 + float_of_Z (snd p) / 1000;
          prop_dNBR := Num d; prop_BAI := Num b; prop_dNDVI := Num v |}]
  | None => []
  end.

Definition gee : EarthEngine :=
  {| ee_Geometry := fun g => Return (GeometryOfJson g);
     ee_Date := fun s =>
       if String.eqb s "2023-11-01" then Return nov_01
       else if String.eqb s "2023-11-15" then Return nov_15
       else Raise (EEException "Invalid date");
     date_year := fun _ => Return 2023%Z;
     gaul_level2 := fun st di =>
       if String.eqb st "Punjab" && String.eqb di "Ludhiana"
       then Return [polygon] else Return [];
     s2_images := fun _ => Return [pre_image; post_image];
     mcd12q1 := fun year =>
       if (year <=? 2023)%Z then Return (Some (fun _ => Some 12%Z))
       else Raise (EEException "Parameter 'input' is required and may not be null");
     median := fun images =>
       match images with
       | image :: _ => image
       | [] => fun _ _ => None
       end;
     normalizedDifference := fun image b1 b2 p =>
       match image b1 p, image b2 p with
       | Some x, Some y => Some ((x - y) / (x + y))
       | _, _ => None
       end;
     sample := fun image _ _ _ _ => Return (flat_map (feature_at image) visited) |}.

(** A world whose archive has no image before the fire. *)
Definition gee_no_pre : EarthEngine :=
  with_archive gee (fun _ => Return [post_image]).

(** A world whose land-cover dataset has no image for the year. *)
Definition gee_no_landcover : EarthEngine :=
  with_landcover gee (fun _ => Return None).

(** The image after the fire, taken at another time. *)
Definition post_image_at (time : Z) : S2Image :=
  {| system_time_start := time;
     CLOUDY_PIXEL_PERCENTAGE := CLOUDY_PIXEL_PERCENTAGE post_image;
     band := band post_image |}.

(** A world whose only image after the fire is taken at the very end date,
    and one where it is taken a millisecond before. *)
Definition gee_at_end : EarthEngine :=
  with_archive gee (fun _ => Return [pre_image; post_image_at nov_15]).

Definition gee_before_end : EarthEngine :=
  with_archive gee (fun _ => Return [pre_image; post_image_at (nov_15 - 1)]).

(** A world whose land cover of 2023 is cropland in the column [0] only,
    and whose land cover of the other years is water. *)
Definition gee_few_fields : EarthEngine :=
  with_landcover gee (fun year =>
    if (year =? 2023)%Z
    then Return (Some (fun p => if (snd p =? 0)%Z then Some 12%Z else Some 17%Z))
    else Return (Some (fun _ => Some 17%Z))).

(** The same with dates whose year is 2025. *)
Definition gee_2025 : EarthEngine :=
  {| ee_Geometry := ee_Geometry gee_few_fields;
     ee_Date := ee_Date gee_few_fields;
     date_year := fun _ => Return 2025%Z;
     gaul_level2 := gaul_level2 gee_few_fields;
     s2_images := s2_images gee_few_fields;
     mcd12q1 := mcd12q1 gee_few_fields;
     median := median gee_few_fields;
     normalizedDifference := normalizedDifference gee_few_fields;
     sample := sample gee_few_fields |}.

(** A request in draw mode, one in lookup mode, one with both a region and
    a district, one with neither, and one for a district that does not
    exist. *)
Definition drawn : dict :=
  [("type", JStr "Feature"); ("properties", JObj []); ("geometry", polygon)].

Definition request_roi : FireDetectionRequest :=
  {| start_date := "2023-11-01"; end_date := "2023-11-15";
     state := Some ""; district := Some ""; roi := Some drawn |}.

Definition request_district : FireDetectionRequest :=
  {| start_date := "2023-11-01"; end_date := "2023-11-15";
     state := Some "Punjab"; district := Some "Ludhiana"; roi := None |}.

Definition request_both : FireDetectionRequest :=
  {| start_date := "2023-11-01"; end_date := "2023-11-15";
     state := Some "Punjab"; district := Some "Ludhiana"; roi := Some drawn |}.

Definition request_neither : FireDetectionRequest :=
  {| start_date := "2023-11-01"; end_date := "2023-11-15";
     state := None; district := None; roi := None |}.

Definition request_unknown_district : FireDetectionRequest :=
  {| start_date := "2023-11-01"; end_date := "2023-11-15";
     state := Some "Punjab"; district := Some "Atlantis"; roi := None |}.

End Demo.

(** ** The rest of the API and of the dashboard *)

(** [STATES_DISTRICTS], in the order the dictionary is written. *)
Definition STATES_DISTRICTS : list (string * list string) :=
  [("Punjab", ["Amritsar"; "Bathinda"; "Ferozepur"; "Gurdaspur"; "Hoshiarpur";
               "Jalandhar"; "Ludhiana"; "Patiala"; "Sangrur"]);
   ("Haryana", ["Ambala"; "Hisar"; "Karnal"; "Kurukshetra"; "Panipat";
                "Rohtak"; "Sirsa"; "Sonipat"; "Yamunanagar"]);
   ("Uttar Pradesh", ["Agra"; "Aligarh"; "Bareilly"; "Ghaziabad"; "Kanpur";
                      "Lucknow"; "Meerut"; "Varanasi"]);
   ("Delhi", ["Central Delhi"; "East Delhi"; "New Delhi"; "North Delhi";
              "South Delhi"; "West Delhi"])].

(** [STATES_DISTRICTS.get(state)] *)
Fixpoint districts_of (table : list (string * list string)) (state_name : string)
  : option (list string) :=
  match table with
  | [] => None
  | (k, v) :: rest =>
      if String.eqb k state_name then Some v else districts_of rest state_name
  end.

(** [GET /api/states]: [list(STATES_DISTRICTS.keys())] *)
Definition get_states_api : list string := map fst STATES_DISTRICTS.

(** [GET /api/districts/{state}]; an [HTTPException] raised without a
    detail carries the phrase of its status. *)
Definition get_districts_api (state_name : string) : HttpResponse (list string) :=
  match districts_of STATES_DISTRICTS state_name with
  | None => HttpError 404 "Not Found"
  | Some districts => Http200 districts
  end.

(** [getSeverityColor(severity)] of the dashboard's script. *)
Definition getSeverityColor (severity_text : string) : string :=
  if String.eqb severity_text "Very High Severity" then "#d73027"
  else if String.eqb severity_text "High Severity" then "#fc8d59"
  else if String.eqb severity_text "Moderate Severity" then "#fee08b"
  else if String.eqb severity_text "Low Severity" then "#ffffbf"
  else "#bababa".

(** The grades listed by [updateLegend]. *)
Definition legend_grades : list string :=
  ["Very High Severity"; "High Severity"; "Moderate Severity"; "Low Severity"].

(** ** Reading detections *)

(** The position of a level on the severity scale, from the lowest. *)
Definition severity_rank (s : Severity) : nat :=
  match s with
  | Unknown => 0
  | UnburnedOrRegrowth => 0
  | LowSeverity => 1
  | ModerateSeverity => 2
  | HighSeverity => 3
  | VeryHighSeverity => 4
  end.

(** The four levels of a burnt pixel. *)
Definition burnt_levels : list Severity :=
  [VeryHighSeverity; HighSeverity; ModerateSeverity; LowSeverity].

(** A property of a feature is JSON [null]. *)
Definition has_null (feature : Feature) : bool :=
  match prop_dNBR feature, prop_BAI feature, prop_dNDVI feature with
  | Null, _, _ | _, Null, _ | _, _, Null => true
  | _, _, _ => false
  end.

(** A detection and the feature it was made from. *)
Definition made_from (i : nat) (feature : Feature) (spot : Hotspot) : Prop :=
  id spot = (i + 1)%nat /\
  latitude spot = coord_latitude feature /\
  longitude spot = coord_longitude feature /\
  severity spot = get_burn_severity (props_get (prop_dNBR feature)) /\
  In (severity spot) documented_levels.

(** The service with another answer of the sampler. *)
Definition with_sample (gee : EarthEngine)
    (sampler : AnalysisImage -> Geometry -> Z -> Z -> Z -> result (list Feature))
  : EarthEngine :=
  {| ee_Geometry := ee_Geometry gee;
     ee_Date := ee_Date gee;
     date_year := date_year gee;
     gaul_level2 := gaul_level2 gee;
     s2_images := s2_images gee;
     mcd12q1 := mcd12q1 gee;
     median := median gee;
     normalizedDifference := normalizedDifference gee;
     sample := sampler |}.

(** The service with another answer of the boundary dataset. *)
Definition with_gaul (gee : EarthEngine)
    (lookup : string -> string -> result (list json)) : EarthEngine :=
  {| ee_Geometry := ee_Geometry gee;
     ee_Date := ee_Date gee;
     date_year := date_year gee;
     gaul_level2 := lookup;
     s2_images := s2_images gee;
     mcd12q1 := mcd12q1 gee;
     median := median gee;
     normalizedDifference := normalizedDifference gee;
     sample := sample gee |}.

(** The sampler returns only pixels that are not masked in the image, each
    with the three values the image has there. *)
Definition sampler_sound (gee : EarthEngine) : Prop :=
  forall (image : AnalysisImage) (region : Geometry) (scale n tiles : Z)
         (features : list Feature) (feature : Feature),
    sample gee image region scale n tiles = Return features ->
    In feature features ->
    exists (p : Pixel) (d b v : float),
      image p = Some (d, b, v) /\
      prop_dNBR feature = Num d /\ prop_BAI feature = Num b /\
      prop_dNDVI feature = Num v.

(** ** More of the small world *)

Module Faults.

(** A feature whose [dNDVI] is JSON [null], and one without [dNBR]. *)
Definition null_feature : Feature :=
  {| coord_longitude := 75.81; coord_latitude := 30.82;
     prop_dNBR := Num 0.5; prop_BAI := Num 120; prop_dNDVI := Null |}.

Definition bare_feature : Feature :=
  {| coord_longitude := 75.83; coord_latitude := 30.84;
     prop_dNBR := Missing; prop_BAI := Num 95.5; prop_dNDVI := Num 0.3 |}.

Definition good_feature : Feature :=
  {| coord_longitude := 75.85; coord_latitude := 30.86;
     prop_dNBR := Num 0.3004; prop_BAI := Num 101.126; prop_dNDVI := Num 0.25 |}.

(** A world whose sampler returns a feature with a null property. *)
Definition gee_null : EarthEngine :=
  with_sample Demo.gee (fun _ _ _ _ _ => Return [good_feature; null_feature]).

(** A world whose boundary dataset cannot be reached. *)
Definition gee_gaul_down : EarthEngine :=
  with_gaul Demo.gee (fun _ _ => Raise (OtherException "Connection reset")).

(** A world whose sampler fails. *)
Definition gee_sample_down : EarthEngine :=
  with_sample Demo.gee
    (fun _ _ _ _ _ => Raise (EEException "Computation timed out.")).

(** A region drawn without its geometry. *)
Definition request_no_geometry : FireDetectionRequest :=
  {| start_date := "2023-11-01"; end_date := "2023-11-15";
     state := None; district := None;
     roi := Some [("type", JStr "Feature")] |}.

(** A stored result from an earlier run. *)
Definition earlier : FireData :=
  fst (run_fire_detection Demo.gee initial_fire_data Demo.request_district).

(** The quality band of a pixel: clear, cloud, cirrus. *)
Definition qa_image (qa : Z) : S2Image :=
  {| system_time_start := 0;
     CLOUDY_PIXEL_PERCENTAGE := 0;
     band := fun b _ => if String.eqb b "QA60" then Some qa else Some 2500%Z |}.

End Faults.

(** * Part II: facts *)

(** ** Order of binary64 numbers *)

Lemma SFcompare_sf_key (x y : spec_float) :
  SFcompare x y =
  match sf_key x, sf_key y with
  | Some a, Some b => Some (key_compare a b)
  | _, _ => None
  end.
Proof.
  destruct x as [sx|sx| |sx mx ex], y as [sy|sy| |sy my ey]; simpl;
    try reflexivity;
    try (destruct sx; reflexivity);
    try (destruct sy; reflexivity);
    try (destruct sx, sy; reflexivity).
  destruct sx, sy; simpl; try reflexivity.
  rewrite Z.compare_opp.
  rewrite (Z.compare_antisym ex ey).
  change (Pos.compare_cont Eq mx my) with (Pos.compare mx my).
  destruct (ex ?= ey)%Z; simpl; reflexivity.
Qed.

Lemma key_compare_spec (a b : Key) :
  match key_compare a b with
  | Eq => a = b
  | Lt => key_lt a b
  | Gt => key_lt b a
  end.
Proof.
  destruct a as [[a1 a2] a3], b as [[b1 b2] b3]. unfold key_compare, key_lt.
  destruct (Z.compare_spec a1 b1); [|lia|lia].
  destruct (Z.compare_spec a2 b2); [|lia|lia].
  destruct (Z.compare_spec a3 b3); [|lia|lia].
  subst. reflexivity.
Qed.

Lemma key_lt_irrefl (a : Key) : ~ key_lt a a.
Proof. destruct a as [[a1 a2] a3]. unfold key_lt. lia. Qed.

Lemma key_lt_trans (a b c : Key) : key_lt a b -> key_lt b c -> key_lt a c.
Proof.
  destruct a as [[a1 a2] a3], b as [[b1 b2] b3], c as [[c1 c2] c3].
  unfold key_lt. lia.
Qed.

Lemma key_lt_asym (a b : Key) : key_lt a b -> ~ key_lt b a.
Proof. intros H H'. exact (key_lt_irrefl a (key_lt_trans a b a H H')). Qed.

(** [x < y] holds exactly when both have keys, in strict order. *)
Lemma ltb_key (x y : float) :
  (x <? y) = true <->
  exists a b, float_key x = Some a /\ float_key y = Some b /\ key_lt a b.
Proof.
  rewrite ltb_spec. unfold SFltb, float_key. rewrite SFcompare_sf_key.
  destruct (sf_key (Prim2SF x)) as [a|], (sf_key (Prim2SF y)) as [b|];
    try (split; [discriminate | intros (a' & b' & Ha & Hb & _); discriminate]).
  pose proof (key_compare_spec a b) as Hc.
  destruct (key_compare a b); split; try discriminate.
  - intros (a' & b' & Ha & Hb & Hlt). injection Ha as <-. injection Hb as <-.
    subst b. destruct (key_lt_irrefl a Hlt).
  - intros _. exists a, b. auto.
  - intros _. reflexivity.
  - intros (a' & b' & Ha & Hb & Hlt). injection Ha as <-. injection Hb as <-.
    destruct (key_lt_asym a b Hlt Hc).
Qed.

(** [x <= y] holds exactly when both have keys, not in reverse order. *)
Lemma leb_key (x y : float) :
  (x <=? y) = true <->
  exists a b, float_key x = Some a /\ float_key y = Some b /\ ~ key_lt b a.
Proof.
  rewrite leb_spec. unfold SFleb, float_key. rewrite SFcompare_sf_key.
  destruct (sf_key (Prim2SF x)) as [a|], (sf_key (Prim2SF y)) as [b|];
    try (split; [discriminate | intros (a' & b' & Ha & Hb & _); discriminate]).
  pose proof (key_compare_spec a b) as Hc.
  destruct (key_compare a b); split; try discriminate.
  - intros _. exists a, b. subst b. auto using key_lt_irrefl.
  - intros _. reflexivity.
  - intros _. exists a, b. auto using key_lt_asym.
  - intros _. reflexivity.
  - intros (a' & b' & Ha & Hb & Hn). injection Ha as <-. injection Hb as <-.
    destruct (Hn Hc).
Qed.

(** A number equals itself exactly when it is not [nan], that is, when it
    has a key. *)
Lemma eqb_refl_key (x : float) :
  (x =? x) = true <-> exists a, float_key x = Some a.
Proof.
  rewrite FloatAxioms.eqb_spec. unfold SFeqb, float_key. rewrite SFcompare_sf_key.
  destruct (sf_key (Prim2SF x)) as [a|].
  - pose proof (key_compare_spec a a) as Hc.
    destruct (key_compare a a).
    + split; eauto.
    + destruct (key_lt_irrefl a Hc).
    + destruct (key_lt_irrefl a Hc).
  - split; [discriminate | intros (a & Ha); discriminate].
Qed.

(** A number strictly below [y] does not reach [y]. *)
Lemma ltb_not_leb (x y : float) : (x <? y) = true -> (y <=? x) = false.
Proof.
  intros H. apply ltb_key in H. destruct H as (a & b & Ha & Hb & Hlt).
  destruct (y <=? x) eqn:E; [|reflexivity].
  apply leb_key in E. destruct E as (b' & a' & Hb' & Ha' & Hn).
  rewrite Hb in Hb'. rewrite Ha in Ha'. injection Hb' as <-. injection Ha' as <-.
  destruct (Hn Hlt).
Qed.

(** The strict order is transitive. *)
Lemma ltb_trans (x y z : float) :
  (x <? y) = true -> (y <? z) = true -> (x <? z) = true.
Proof.
  intros Hxy Hyz.
  apply ltb_key in Hxy. destruct Hxy as (a & b & Ha & Hb & Hab).
  apply ltb_key in Hyz. destruct Hyz as (b' & c & Hb' & Hc & Hbc).
  rewrite Hb in Hb'. injection Hb' as <-.
  apply ltb_key. exists a, c. eauto using key_lt_trans.
Qed.

(** Two numbers that are not [nan] are comparable. *)
Lemma leb_total (x y : float) :
  (x =? x) = true -> (y =? y) = true -> (x <? y) = false -> (y <=? x) = true.
Proof.
  intros Hx Hy Hlt.
  apply eqb_refl_key in Hx. destruct Hx as (a & Ha).
  apply eqb_refl_key in Hy. destruct Hy as (b & Hb).
  apply leb_key. exists b, a. repeat split; try assumption.
  intros Hab. assert (H : (x <? y) = true) by (apply ltb_key; eauto).
  rewrite H in Hlt. discriminate.
Qed.

(** ** Severity classification *)

Ltac severity_tier :=
  unfold get_burn_severity;
  repeat match goal with
         | H : (_ <? _) = true |- _ => apply ltb_not_leb in H
         | H : _ = _ |- _ => rewrite H
         end;
  reflexivity.

(** C1. For every number [v] given as dNBR the classifier returns one of
    the five tiers, by fixed thresholds: [v >= 0.66] gives Very High,
    [0.44 <= v < 0.66] High, [0.27 <= v < 0.44] Moderate,
    [0.10 <= v < 0.27] Low and [v < 0.10] Unburned or Regrowth; each of the
    four boundary values falls in the higher tier. *)
Theorem get_burn_severity_tiers (v : float) :
  ((0.66 <=? v) = true -> get_burn_severity (Some v) = VeryHighSeverity) /\
  ((0.44 <=? v) = true -> (v <? 0.66) = true ->
   get_burn_severity (Some v) = HighSeverity) /\
  ((0.27 <=? v) = true -> (v <? 0.44) = true ->
   get_burn_severity (Some v) = ModerateSeverity) /\
  ((0.10 <=? v) = true -> (v <? 0.27) = true ->
   get_burn_severity (Some v) = LowSeverity) /\
  ((v <? 0.10) = true -> get_burn_severity (Some v) = UnburnedOrRegrowth) /\
  In (get_burn_severity (Some v)) documented_levels /\
  get_burn_severity (Some 0.66) = VeryHighSeverity /\
  get_burn_severity (Some 0.44) = HighSeverity /\
  get_burn_severity (Some 0.27) = ModerateSeverity /\
  get_burn_severity (Some 0.10) = LowSeverity.
Proof.
  repeat split; try reflexivity.
  - intros H. severity_tier.
  - intros H1 H2. severity_tier.
  - intros H1 H2.
    pose proof (ltb_trans v 0.44 0.66 H2 eq_refl) as H3.
    severity_tier.
  - intros H1 H2.
    pose proof (ltb_trans v 0.27 0.44 H2 eq_refl) as H3.
    pose proof (ltb_trans v 0.44 0.66 H3 eq_refl) as H4.
    severity_tier.
  - intros H1.
    pose proof (ltb_trans v 0.10 0.27 H1 eq_refl) as H2.
    pose proof (ltb_trans v 0.27 0.44 H2 eq_refl) as H3.
    pose proof (ltb_trans v 0.44 0.66 H3 eq_refl) as H4.
    severity_tier.
  - unfold get_burn_severity, documented_levels.
    destruct (0.66 <=? v); [simpl; auto|].
    destruct (0.44 <=? v); [simpl; auto|].
    destruct (0.27 <=? v); [simpl; auto|].
    destruct (0.10 <=? v); simpl; auto 6.
Qed.

(** One number in each tier. *)
Lemma get_burn_severity_tiers_witness :
  get_burn_severity (Some 0.9) = VeryHighSeverity /\
  get_burn_severity (Some 0.5) = HighSeverity /\
  get_burn_severity (Some 0.3) = ModerateSeverity /\
  get_burn_severity (Some 0.15) = LowSeverity /\
  get_burn_severity (Some (-0.2)) = UnburnedOrRegrowth.
Proof.
  split; [exact (proj1 (get_burn_severity_tiers 0.9) eq_refl)|].
  split; [exact (proj1 (proj2 (get_burn_severity_tiers 0.5)) eq_refl eq_refl)|].
  split; [exact (proj1 (proj2 (proj2 (get_burn_severity_tiers 0.3)))
                   eq_refl eq_refl)|].
  split; [exact (proj1 (proj2 (proj2 (proj2 (get_burn_severity_tiers 0.15))))
                   eq_refl eq_refl)|].
  exact (proj1 (proj2 (proj2 (proj2 (proj2 (get_burn_severity_tiers (-0.2))))))
           eq_refl).
Defined.

(** [nan] is below no threshold and reaches none: it falls in the last
    tier. *)
Lemma get_burn_severity_nan :
  get_burn_severity (Some nan) = UnburnedOrRegrowth.
Proof. reflexivity. Qed.

(** C10. For [None] the classifier returns ['Unknown'], which is none of
    the five documented levels; for every other input the result is one of
    the five. *)
Theorem get_burn_severity_unknown :
  get_burn_severity None = Unknown /\
  severity_label (get_burn_severity None) = "Unknown" /\
  ~ In Unknown documented_levels /\
  forall v : float,
    In (get_burn_severity (Some v)) documented_levels /\
    get_burn_severity (Some v) <> Unknown.
Proof.
  split; [reflexivity|]. split; [reflexivity|]. split.
  - unfold documented_levels. simpl. intuition discriminate.
  - intros v. unfold get_burn_severity, documented_levels.
    destruct (0.66 <=? v); [simpl; split; [auto|discriminate]|].
    destruct (0.44 <=? v); [simpl; split; [auto|discriminate]|].
    destruct (0.27 <=? v); [simpl; split; [auto|discriminate]|].
    destruct (0.10 <=? v); simpl; split; (auto 6 || discriminate).
Qed.

(** ** The burn mask *)

Lemma gt_true (r : Raster) (c : float) (p : Pixel) :
  gt r c p = Some true <-> exceeds r c p.
Proof.
  unfold gt, exceeds. destruct (r p) as [v|].
  - split.
    + intros H. injection H as H. exists v. auto.
    + intros (w & Hw & Hlt). injection Hw as <-. rewrite Hlt. reflexivity.
  - split; [discriminate | intros (w & Hw & _); discriminate].
Qed.

Lemma And_true (a b : MaskRaster) (p : Pixel) :
  And a b p = Some true <-> a p = Some true /\ b p = Some true.
Proof.
  unfold And. destruct (a p) as [[]|], (b p) as [[]|]; simpl;
    split; try discriminate; try (intros [H1 H2]; discriminate); auto.
Qed.

Lemma burn_mask_true (dnbr_r bai_r dndvi_r : Raster) (p : Pixel) :
  burn_mask dnbr_r bai_r dndvi_r p = Some true <->
  exceeds dnbr_r 0.10 p /\ exceeds bai_r 89 p /\ exceeds dndvi_r 0.2 p.
Proof.
  unfold burn_mask, dnbr_threshold, bai_threshold, dndvi_threshold.
  rewrite !And_true, !gt_true. tauto.
Qed.

Lemma updateMask_candidate (image : AnalysisImage) (m : MaskRaster) (p : Pixel) :
  candidate (updateMask image m) p <-> m p = Some true /\ candidate image p.
Proof.
  unfold candidate, updateMask. destruct (m p) as [[]|].
  - tauto.
  - split; [intros (v & Hv); discriminate | intros [H _]; discriminate].
  - split; [intros (v & Hv); discriminate | intros [H _]; discriminate].
Qed.

Lemma addBands3_candidate (a b c : Raster) (p : Pixel) :
  candidate (addBands3 a b c) p <->
  (exists x, a p = Some x) /\ (exists y, b p = Some y) /\ (exists z, c p = Some z).
Proof.
  unfold candidate, addBands3.
  destruct (a p) as [x|], (b p) as [y|], (c p) as [z|]; split;
    try (intros (v & Hv); discriminate);
    try (intros ((x' & Hx) & (y' & Hy) & (z' & Hz)); discriminate);
    intros _; repeat split; eexists; reflexivity.
Qed.

Lemma exceeds_defined (r : Raster) (c : float) (p : Pixel) :
  exceeds r c p -> exists v, r p = Some v.
Proof. intros (v & Hv & _). eauto. Qed.

(** The cropland mask is true exactly on the two cropland classes, and
    never false. *)
Lemma cropland_mask_true (landcover : LandCover) (p : Pixel) :
  (cropland_mask landcover p = Some true <->
   landcover p = Some 12%Z \/ landcover p = Some 14%Z) /\
  cropland_mask landcover p <> Some false.
Proof.
  unfold cropland_mask, selfMask, Or, eq_code. destruct (landcover p) as [c|].
  - destruct (Z.eqb_spec c 12) as [-> | H12]; cbn [orb].
    + split; [|discriminate]. split; auto.
    + destruct (Z.eqb_spec c 14) as [-> | H14]; cbn.
      * split; [|discriminate]. split; auto.
      * split; [|discriminate]. split; [discriminate|].
        intros [E | E]; injection E as E; contradiction.
  - split; [|discriminate]. split; [discriminate|].
    intros [E | E]; discriminate.
Qed.

(** The client always describes a mask: [get_agricultural_mask] never
    returns [None]. *)
Lemma get_agricultural_mask_described (gee : EarthEngine) (year : Z) :
  exists described, get_agricultural_mask gee year = Some described.
Proof. unfold get_agricultural_mask, mcd12q1_first. eexists. reflexivity. Qed.

(** What the described mask evaluates to: the cropland mask of the year's
    land cover, or an exception when the dataset has no image or fails. *)
Lemma evaluate_agricultural_mask (gee : EarthEngine) (year : Z) :
  evaluate_mask (get_agricultural_mask gee year) =
  match mcd12q1 gee year with
  | Return (Some landcover) => Return (Some (cropland_mask landcover))
  | Return None =>
      Raise (EEException
               "Image.select: Parameter 'input' is required and may not be null.")
  | Raise e => Raise e
  end.
Proof.
  unfold get_agricultural_mask, mcd12q1_first, evaluate_mask.
  destruct (mcd12q1 gee year) as [[landcover|]|e]; reflexivity.
Qed.

(** A pixel is left unmasked in the analysis image if and only if dNBR >
    0.10, BAI > 89 and dNDVI > 0.2 all hold there and, when there is an
    agricultural mask, the mask is true there. *)
Lemma analysis_image_candidate (dnbr_r bai_r dndvi_r : Raster) (p : Pixel) :
  (forall agri : MaskRaster,
      candidate (analysis_image dnbr_r bai_r dndvi_r (Some agri)) p <->
      exceeds dnbr_r 0.10 p /\ exceeds bai_r 89 p /\ exceeds dndvi_r 0.2 p /\
      agri p = Some true) /\
  (candidate (analysis_image dnbr_r bai_r dndvi_r None) p <->
   exceeds dnbr_r 0.10 p /\ exceeds bai_r 89 p /\ exceeds dndvi_r 0.2 p).
Proof.
  split.
  - intros agri. unfold analysis_image, final_mask.
    rewrite updateMask_candidate, And_true, burn_mask_true, addBands3_candidate.
    split.
    + tauto.
    + intros (H1 & H2 & H3 & H4). repeat split; eauto using exceeds_defined.
  - unfold analysis_image, final_mask.
    rewrite updateMask_candidate, burn_mask_true, addBands3_candidate.
    split.
    + tauto.
    + intros (H1 & H2 & H3). repeat split; eauto using exceeds_defined.
Qed.

(** When the land-cover dataset has no image for any year, or fails, the
    pipeline returns no detection: the mask that cannot be evaluated makes
    the sampling raise, and the exception is caught. *)
Lemma missing_landcover_no_detection (gee : EarthEngine)
    (roi_geometry : Geometry) (start_date_str end_date_str : string) :
  (forall year,
      mcd12q1 gee year = Return None \/ exists e, mcd12q1 gee year = Raise e) ->
  extract_burn_scars_s2 gee roi_geometry start_date_str end_date_str = [].
Proof.
  intros Hlc. unfold extract_burn_scars_s2, extract_burn_scars_s2_try.
  destruct (ee_Date gee start_date_str) as [s|e0]; cbn [bind]; [|reflexivity].
  destruct (ee_Date gee end_date_str) as [t|e0]; cbn [bind]; [|reflexivity].
  unfold fire_windows.
  destruct (s2_sr_harmonized gee roi_geometry 40 (advance_day (-60) s)
              (advance_day (-15) s)) as [pre|e0]; cbn [bind]; [|reflexivity].
  destruct (s2_sr_harmonized gee roi_geometry 40 s t) as [post|e0];
    cbn [bind]; [|reflexivity].
  unfold analyse_collections.
  destruct ((List.length pre =? 0)%nat || (List.length post =? 0)%nat);
    [reflexivity|].
  destruct (index_rasters gee pre post) as [[d b] v].
  destruct (date_year gee s) as [y|e0]; cbn [bind]; [|reflexivity].
  rewrite evaluate_agricultural_mask.
  destruct (Hlc (agri_mask_year y)) as [H | (e & H)]; rewrite H; reflexivity.
Qed.

(** C2, on the code. In a run whose year has no image in the land-cover
    dataset, [get_agricultural_mask] does not return [None]: the client only
    describes the first image of the year.  The branch that goes on with the
    spectral mask alone is not taken; the sampling raises and the pipeline
    returns no detection, although two pixels satisfy the three spectral
    criteria and are detected when the dataset has the image. *)
Theorem missing_landcover_run_empty :
  mcd12q1 Demo.gee_no_landcover 2023 = Return None /\
  get_agricultural_mask Demo.gee_no_landcover (agri_mask_year 2023) <> None /\
  extract_burn_scars_s2 Demo.gee_no_landcover (GeometryOfJson Demo.polygon)
    "2023-11-01" "2023-11-15" = [] /\
  (let '(dnbr_r, bai_r, dndvi_r) :=
     index_rasters Demo.gee_no_landcover [Demo.pre_image] [Demo.post_image] in
   candidate (analysis_image dnbr_r bai_r dndvi_r None) (0, 0)%Z /\
   candidate (analysis_image dnbr_r bai_r dndvi_r None) (0, 1)%Z) /\
  List.length
    (extract_burn_scars_s2 Demo.gee (GeometryOfJson Demo.polygon)
       "2023-11-01" "2023-11-15") = 2%nat.
Proof.
  split; [reflexivity|]. split; [discriminate|]. split.
  - apply missing_landcover_no_detection. intros year. left. reflexivity.
  - split; [|vm_compute; reflexivity].
    split; eexists; vm_compute; reflexivity.
Qed.

(** ** Date windows *)

Lemma filterDate_In (from to : Z) (images : list S2Image) (image : S2Image) :
  In image (filterDate from to images) <->
  In image images /\ (from <= system_time_start image < to)%Z.
Proof.
  unfold filterDate. rewrite filter_In, andb_true_iff, Z.leb_le, Z.ltb_lt.
  tauto.
Qed.

Lemma filter_cloud_In (bound : float) (images : list S2Image) (image : S2Image) :
  In image (filter_cloud bound images) <->
  In image images /\ (CLOUDY_PIXEL_PERCENTAGE image <? bound) = true.
Proof. unfold filter_cloud. apply filter_In. Qed.

(** The subset that a run evaluates between two dates. *)
Lemma s2_sr_harmonized_In (gee : EarthEngine) (region : Geometry)
    (images : list S2Image) (from to : Z) :
  s2_images gee region = Return images ->
  exists subset,
    s2_sr_harmonized gee region 40 from to = Return subset /\
    forall image,
      In image subset <->
      In image images /\ (CLOUDY_PIXEL_PERCENTAGE image <? 40) = true /\
      (from <= system_time_start image < to)%Z.
Proof.
  intros H. unfold s2_sr_harmonized. rewrite H. cbn [bind].
  eexists. split; [reflexivity|]. intros image.
  rewrite filterDate_In, filter_cloud_In. tauto.
Qed.

(** C6, as stated, fails: an image taken at the end date lies in
    [[start, end]] but is not in the post-fire subset that the run evaluates;
    the run with this image alone finds nothing, and the run with the same
    image a millisecond earlier finds two detections. *)
Lemma end_date_excluded :
  (Demo.nov_01 <= system_time_start (Demo.post_image_at Demo.nov_15)
   <= Demo.nov_15)%Z /\
  s2_images Demo.gee_at_end (GeometryOfJson Demo.polygon) =
  Return [Demo.pre_image; Demo.post_image_at Demo.nov_15] /\
  s2_sr_harmonized Demo.gee_at_end (GeometryOfJson Demo.polygon) 40
    Demo.nov_01 Demo.nov_15 = Return [] /\
  extract_burn_scars_s2 Demo.gee_at_end (GeometryOfJson Demo.polygon)
    "2023-11-01" "2023-11-15" = [] /\
  List.length
    (extract_burn_scars_s2 Demo.gee_before_end (GeometryOfJson Demo.polygon)
       "2023-11-01" "2023-11-15") = 2%nat.
Proof.
  split; [cbn; unfold Demo.nov_01, Demo.nov_15; lia|].
  split; [reflexivity|].
  split; [reflexivity|].
  split; vm_compute; reflexivity.
Qed.

(** C6, amended. For every start and end date, the run analyses two subsets
    of the images of the region under 40% of cloud: the post-fire subset holds
    the images taken from the start date on and before the end date, the
    pre-fire subset those taken from 60 days before the start date on and
    before 15 days before it.  Both ranges include their first date and
    exclude their last. *)
Theorem fire_windows_half_open (gee : EarthEngine) (roi_geometry : Geometry)
    (start_date_str end_date_str : string) (start_ms end_ms : Z)
    (images : list S2Image) :
  ee_Date gee start_date_str = Return start_ms ->
  ee_Date gee end_date_str = Return end_ms ->
  s2_images gee roi_geometry = Return images ->
  exists pre_fire_collection post_fire_collection,
    extract_burn_scars_s2_try gee roi_geometry start_date_str end_date_str =
    analyse_collections gee roi_geometry start_ms
      pre_fire_collection post_fire_collection /\
    (forall image,
        In image pre_fire_collection <->
        In image images /\ (CLOUDY_PIXEL_PERCENTAGE image <? 40) = true /\
        (start_ms - 60 * ms_per_day <= system_time_start image
         < start_ms - 15 * ms_per_day)%Z) /\
    (forall image,
        In image post_fire_collection <->
        In image images /\ (CLOUDY_PIXEL_PERCENTAGE image <? 40) = true /\
        (start_ms <= system_time_start image < end_ms)%Z).
Proof.
  intros Hs He Hi.
  destruct (s2_sr_harmonized_In gee roi_geometry images
              (advance_day (-60) start_ms) (advance_day (-15) start_ms) Hi)
    as (pre & Hpre & Hpre_in).
  destruct (s2_sr_harmonized_In gee roi_geometry images start_ms end_ms Hi)
    as (post & Hpost & Hpost_in).
  exists pre, post. split; [|split].
  - unfold extract_burn_scars_s2_try. rewrite Hs, He. cbn [bind].
    unfold fire_windows. rewrite Hpre, Hpost. reflexivity.
  - intros image. rewrite Hpre_in. unfold advance_day.
    replace (start_ms + -60 * ms_per_day)%Z
      with (start_ms - 60 * ms_per_day)%Z by lia.
    replace (start_ms + -15 * ms_per_day)%Z
      with (start_ms - 15 * ms_per_day)%Z by lia.
    tauto.
  - exact Hpost_in.
Qed.

(** The run of the small world analyses the image of October as its
    pre-fire subset and the image of November as its post-fire subset. *)
Lemma fire_windows_half_open_witness :
  exists pre_fire_collection post_fire_collection,
    extract_burn_scars_s2_try Demo.gee (GeometryOfJson Demo.polygon)
      "2023-11-01" "2023-11-15" =
    analyse_collections Demo.gee (GeometryOfJson Demo.polygon) Demo.nov_01
      pre_fire_collection post_fire_collection /\
    (In Demo.pre_image pre_fire_collection /\
     ~ In Demo.post_image pre_fire_collection) /\
    (In Demo.post_image post_fire_collection /\
     ~ In Demo.pre_image post_fire_collection).
Proof.
  destruct (fire_windows_half_open Demo.gee (GeometryOfJson Demo.polygon)
              "2023-11-01" "2023-11-15" Demo.nov_01 Demo.nov_15
              [Demo.pre_image; Demo.post_image] eq_refl eq_refl eq_refl)
    as (pre & post & Hrun & Hpre & Hpost).
  exists pre, post. split; [exact Hrun|]. split; split.
  - apply Hpre. split; [left; reflexivity|]. split; [reflexivity|].
    vm_compute. split; [discriminate | reflexivity].
  - intros H. apply Hpre in H. destruct H as (_ & _ & _ & H).
    vm_compute in H. discriminate.
  - apply Hpost. split; [right; left; reflexivity|]. split; [reflexivity|].
    vm_compute. split; [discriminate | reflexivity].
  - intros H. apply Hpost in H. destruct H as (_ & _ & H & _).
    vm_compute in H. apply H. reflexivity.
Defined.

(** The pre-fire window is 45 days long and ends 15 days before the
    post-fire window starts. *)
Lemma fire_windows_days (start_ms end_ms : Z) :
  let '((pre_start, pre_end), (post_start, post_end)) :=
    fire_windows start_ms end_ms in
  (pre_end - pre_start = 45 * ms_per_day /\
   post_start - pre_end = 15 * ms_per_day /\
   post_start = start_ms /\ post_end = end_ms)%Z.
Proof. unfold fire_windows, advance_day. cbn. lia. Qed.

(** ** The year of the agricultural mask *)

(** What a run samples when both subsets have images: the analysis image
    under the agricultural mask that the answer of the dataset for the year
    asked for evaluates to. *)
Lemma extract_burn_scars_s2_try_year (gee : EarthEngine)
    (roi_geometry : Geometry) (start_date_str end_date_str : string)
    (start_ms end_ms : Z) (pre post : list S2Image) (Y : Z) :
  ee_Date gee start_date_str = Return start_ms ->
  ee_Date gee end_date_str = Return end_ms ->
  s2_sr_harmonized gee roi_geometry 40
    (advance_day (-60) start_ms) (advance_day (-15) start_ms) = Return pre ->
  s2_sr_harmonized gee roi_geometry 40 start_ms end_ms = Return post ->
  pre <> [] -> post <> [] ->
  date_year gee start_ms = Return Y ->
  extract_burn_scars_s2_try gee roi_geometry start_date_str end_date_str =
  let '(dnbr_r, bai_r, dndvi_r) := index_rasters gee pre post in
  agri <-
    match mcd12q1 gee (agri_mask_year Y) with
    | Return (Some landcover) => Return (Some (cropland_mask landcover))
    | Return None =>
        Raise (EEException
                 "Image.select: Parameter 'input' is required and may not be null.")
    | Raise e => Raise e
    end ;;
  features <-
    sample gee (analysis_image dnbr_r bai_r dndvi_r agri)
      roi_geometry sample_scale numPixels tileScale ;;
  all_hotspots_from 0 features.
Proof.
  intros Hs He Hpre Hpost Hne1 Hne2 Hy.
  unfold extract_burn_scars_s2_try. rewrite Hs, He. cbn [bind].
  unfold fire_windows. rewrite Hpre, Hpost. cbn [bind].
  unfold analyse_collections.
  destruct pre as [|im1 pre]; [contradiction|].
  destruct post as [|im2 post]; [contradiction|].
  cbn [List.length Nat.eqb orb].
  destruct (index_rasters gee (im1 :: pre) (im2 :: post)) as [[d b] v].
  rewrite Hy. cbn [bind]. rewrite evaluate_agricultural_mask.
  reflexivity.
Qed.

(** C7. In every run that reaches the analysis, with [Y] the year of the
    start date, the land cover used for the agricultural mask is the one the
    dataset holds for [min(Y, LATEST_VALID_LANDCOVER_YEAR)]: for the latest
    valid year when [Y] exceeds it, and for [Y] itself otherwise.  The image
    that is sampled is masked by the cropland of that land cover, and what
    the dataset holds for any other year changes nothing. *)
Theorem agri_mask_year_queried (gee : EarthEngine)
    (roi_geometry : Geometry) (start_date_str end_date_str : string)
    (start_ms end_ms : Z) (pre post : list S2Image) (Y : Z) :
  ee_Date gee start_date_str = Return start_ms ->
  ee_Date gee end_date_str = Return end_ms ->
  s2_sr_harmonized gee roi_geometry 40
    (advance_day (-60) start_ms) (advance_day (-15) start_ms) = Return pre ->
  s2_sr_harmonized gee roi_geometry 40 start_ms end_ms = Return post ->
  pre <> [] -> post <> [] ->
  date_year gee start_ms = Return Y ->
  let sampled_with (landcover : LandCover) :=
    let '(dnbr_r, bai_r, dndvi_r) := index_rasters gee pre post in
    features <-
      sample gee
        (analysis_image dnbr_r bai_r dndvi_r (Some (cropland_mask landcover)))
        roi_geometry sample_scale numPixels tileScale ;;
    all_hotspots_from 0 features in
  agri_mask_year Y = Z.min Y LATEST_VALID_LANDCOVER_YEAR /\
  ((LATEST_VALID_LANDCOVER_YEAR < Y)%Z ->
   forall landcover,
     mcd12q1 gee LATEST_VALID_LANDCOVER_YEAR = Return (Some landcover) ->
     extract_burn_scars_s2_try gee roi_geometry start_date_str end_date_str =
     sampled_with landcover) /\
  ((Y <= LATEST_VALID_LANDCOVER_YEAR)%Z ->
   forall landcover,
     mcd12q1 gee Y = Return (Some landcover) ->
     extract_burn_scars_s2_try gee roi_geometry start_date_str end_date_str =
     sampled_with landcover) /\
  (forall dataset : Z -> result (option LandCover),
      dataset (Z.min Y LATEST_VALID_LANDCOVER_YEAR) =
      mcd12q1 gee (Z.min Y LATEST_VALID_LANDCOVER_YEAR) ->
      extract_burn_scars_s2_try (with_landcover gee dataset) roi_geometry
        start_date_str end_date_str =
      extract_burn_scars_s2_try gee roi_geometry start_date_str end_date_str).
Proof.
  intros Hs He Hpre Hpost Hne1 Hne2 Hy. cbn zeta.
  pose proof (extract_burn_scars_s2_try_year gee roi_geometry start_date_str
                end_date_str start_ms end_ms pre post Y
                Hs He Hpre Hpost Hne1 Hne2 Hy) as Hrun.
  split; [reflexivity|]. split; [|split].
  - intros Hcmp landcover Hlc. rewrite Hrun.
    unfold agri_mask_year. rewrite Z.min_r by lia. rewrite Hlc.
    destruct (index_rasters gee pre post) as [[d b] v]. reflexivity.
  - intros Hcmp landcover Hlc. rewrite Hrun.
    unfold agri_mask_year. rewrite Z.min_l by lia. rewrite Hlc.
    destruct (index_rasters gee pre post) as [[d b] v]. reflexivity.
  - intros dataset Hsame. rewrite Hrun.
    rewrite (extract_burn_scars_s2_try_year (with_landcover gee dataset)
               roi_geometry start_date_str end_date_str start_ms end_ms
               pre post Y Hs He Hpre Hpost Hne1 Hne2 Hy).
    change (index_rasters (with_landcover gee dataset) pre post)
      with (index_rasters gee pre post).
    destruct (index_rasters gee pre post) as [[d b] v].
    change (mcd12q1 (with_landcover gee dataset) (agri_mask_year Y))
      with (dataset (Z.min Y LATEST_VALID_LANDCOVER_YEAR)).
    rewrite Hsame. reflexivity.
Qed.

(** A run of the year 2025 is masked by the land cover of 2023, where one of
    the two burnt pixels is cropland, and not by the land cover of 2025,
    where none is: it finds one detection. *)
Lemma agri_mask_year_queried_witness :
  agri_mask_year 2025 = 2023%Z /\
  extract_burn_scars_s2_try Demo.gee_2025 (GeometryOfJson Demo.polygon)
    "2023-11-01" "2023-11-15" =
  (let '(dnbr_r, bai_r, dndvi_r) :=
     index_rasters Demo.gee_2025 [Demo.pre_image] [Demo.post_image] in
   features <-
     sample Demo.gee_2025
       (analysis_image dnbr_r bai_r dndvi_r
          (Some (cropland_mask
                   (fun p => if (snd p =? 0)%Z then Some 12%Z else Some 17%Z))))
       (GeometryOfJson Demo.polygon) sample_scale numPixels tileScale ;;
   all_hotspots_from 0 features) /\
  List.length
    (extract_burn_scars_s2 Demo.gee_2025 (GeometryOfJson Demo.polygon)
       "2023-11-01" "2023-11-15") = 1%nat.
Proof.
  destruct (agri_mask_year_queried Demo.gee_2025 (GeometryOfJson Demo.polygon)
              "2023-11-01" "2023-11-15" Demo.nov_01 Demo.nov_15
              [Demo.pre_image] [Demo.post_image] 2025
              eq_refl eq_refl eq_refl eq_refl
              ltac:(discriminate) ltac:(discriminate) eq_refl)
    as (Hmin & Hlate & _ & _).
  split; [exact Hmin|]. split.
  - apply Hlate; reflexivity.
  - vm_compute. reflexivity.
Defined.

(** ** Runs without imagery *)

(** C5. When the pre-fire subset or the post-fire subset of the archive is
    empty, the pipeline returns the empty detection list, and the
    orchestration returns a success with zero detections: no error reaches
    the caller. *)
Theorem empty_subset_no_detections (gee : EarthEngine) (roi_geometry : Geometry)
    (start_date_str end_date_str : string) (start_ms end_ms : Z) :
  ee_Date gee start_date_str = Return start_ms ->
  ee_Date gee end_date_str = Return end_ms ->
  s2_sr_harmonized gee roi_geometry 40
    (advance_day (-60) start_ms) (advance_day (-15) start_ms) = Return [] \/
  s2_sr_harmonized gee roi_geometry 40 start_ms end_ms = Return [] ->
  extract_burn_scars_s2 gee roi_geometry start_date_str end_date_str = [] /\
  forall (current_fire_data : FireData) (request : FireDetectionRequest)
         (boundary : json) (st di : string),
    resolve_region gee request = Return (roi_geometry, boundary, st, di) ->
    start_date request = start_date_str ->
    end_date request = end_date_str ->
    exists current r,
      run_fire_detection gee current_fire_data request = (current, Success r) /\
      fire_hotspots r = 0%nat /\ hotspots_geojson r = [] /\
      hotspots current = [].
Proof.
  intros Hs He Hempty.
  assert (Hx : extract_burn_scars_s2 gee roi_geometry
                 start_date_str end_date_str = []).
  { unfold extract_burn_scars_s2, extract_burn_scars_s2_try.
    rewrite Hs, He. cbn [bind]. unfold fire_windows.
    destruct Hempty as [Hpre | Hpost].
    - rewrite Hpre. cbn [bind].
      destruct (s2_sr_harmonized gee roi_geometry 40 start_ms end_ms);
        reflexivity.
    - rewrite Hpost.
      destruct (s2_sr_harmonized gee roi_geometry 40
                  (advance_day (-60) start_ms) (advance_day (-15) start_ms));
        [|reflexivity].
      cbn [bind]. unfold analyse_collections.
      cbn [List.length Nat.eqb]. rewrite orb_true_r. reflexivity. }
  split; [exact Hx|].
  intros current_fire_data request boundary st di Hr Hsd Hed.
  unfold run_fire_detection, run_fire_detection_try.
  rewrite Hr. cbn [bind]. rewrite Hsd, Hed, Hx.
  eexists. eexists. split; [reflexivity|]. cbn. auto.
Qed.

(** The world with no pre-fire image: the pipeline returns nothing, the
    response is a success with zero detections. *)
Lemma empty_subset_no_detections_witness :
  extract_burn_scars_s2 Demo.gee_no_pre (GeometryOfJson Demo.polygon)
    "2023-11-01" "2023-11-15" = [] /\
  exists current r,
    run_fire_detection Demo.gee_no_pre initial_fire_data Demo.request_roi =
    (current, Success r) /\
    fire_hotspots r = 0%nat /\ hotspots_geojson r = [] /\ hotspots current = [].
Proof.
  destruct (empty_subset_no_detections Demo.gee_no_pre
              (GeometryOfJson Demo.polygon) "2023-11-01" "2023-11-15"
              Demo.nov_01 Demo.nov_15 eq_refl eq_refl (or_introl eq_refl))
    as [Hx Hrun].
  split; [exact Hx|].
  exact (Hrun initial_fire_data Demo.request_roi Demo.polygon "Custom" "ROI"
           eq_refl eq_refl eq_refl).
Defined.

(** ** Validation of the request *)

(** C3, as stated, fails: a request with both a drawn region and a state
    with a district is not rejected; it is processed in draw mode and the
    response is a success. *)
Lemma both_set_not_rejected :
  both_set Demo.request_both = true /\
  ~ rejected (snd (run_fire_detection Demo.gee initial_fire_data
                     Demo.request_both)) /\
  exists r,
    snd (run_fire_detection Demo.gee initial_fire_data Demo.request_both) =
    Success r /\ fire_hotspots r = 2%nat.
Proof.
  split; [reflexivity|]. split.
  - vm_compute. exact (fun H => H).
  - eexists. split; [vm_compute; reflexivity|]. reflexivity.
Qed.

(** C3, amended. A request whose region is set is processed in draw mode
    whatever its state and district hold: they are ignored, and when the
    region has a geometry that the service accepts the run completes with
    that geometry as its boundary.  A request with no region and without
    both a state and a district is rejected: the [try] block raises
    [HTTPException(400)], no detection is run and the stored result is left
    as it was. *)
Theorem region_validation (gee : EarthEngine) (current_fire_data : FireData)
    (request : FireDetectionRequest) :
  (truthy_dict (roi request) = true ->
   (forall st di : option string,
       run_fire_detection_try gee (with_names request st di) =
       run_fire_detection_try gee request) /\
   (forall (d : dict) (g : json) (geometry : Geometry),
       roi request = Some d ->
       dict_get "geometry" d = Some g ->
       ee_Geometry gee g = Return geometry ->
       exists current r,
         run_fire_detection gee current_fire_data request =
         (current, Success r) /\
         boundary_geojson r = g /\
         fd_state current = "Custom" /\ fd_district current = "ROI" /\
         hotspots current =
         extract_burn_scars_s2 gee geometry (start_date request)
           (end_date request))) /\
  (neither_set request = true ->
   run_fire_detection_try gee request =
   Raise (HTTPException 400
            "Either a state/district or a custom ROI must be provided.") /\
   fst (run_fire_detection gee current_fire_data request) = current_fire_data).
Proof.
  split.
  - intros Hroi. split.
    + intros st di. unfold run_fire_detection_try, resolve_region.
      cbn [with_names roi start_date end_date]. rewrite Hroi. reflexivity.
    + intros d g geometry Hd Hg He.
      unfold run_fire_detection, run_fire_detection_try, resolve_region.
      rewrite Hroi, Hd. unfold dict_getitem. rewrite Hg. cbn [bind].
      rewrite He. cbn [bind].
      eexists. eexists. split; [reflexivity|]. cbn. auto.
  - intros Hn. unfold neither_set in Hn.
    apply andb_true_iff in Hn. destruct Hn as [Hroi Hnames].
    apply negb_true_iff in Hroi. apply negb_true_iff in Hnames.
    assert (H : run_fire_detection_try gee request =
                Raise (HTTPException 400
                  "Either a state/district or a custom ROI must be provided.")).
    { unfold run_fire_detection_try, resolve_region.
      rewrite Hroi, Hnames. reflexivity. }
    split; [exact H|].
    unfold run_fire_detection. rewrite H. reflexivity.
Qed.

(** The request with both is processed as the request with the region
    alone; the request with neither raises the validation error. *)
Lemma region_validation_witness :
  run_fire_detection_try Demo.gee Demo.request_both =
  run_fire_detection_try Demo.gee Demo.request_roi /\
  (exists current r,
      run_fire_detection Demo.gee initial_fire_data Demo.request_both =
      (current, Success r) /\
      boundary_geojson r = Demo.polygon /\
      fd_state current = "Custom" /\ fd_district current = "ROI" /\
      hotspots current =
      extract_burn_scars_s2 Demo.gee (GeometryOfJson Demo.polygon)
        "2023-11-01" "2023-11-15") /\
  run_fire_detection_try Demo.gee Demo.request_neither =
  Raise (HTTPException 400
           "Either a state/district or a custom ROI must be provided.").
Proof.
  split; [|split].
  - exact (proj1 (proj1 (region_validation Demo.gee initial_fire_data
                           Demo.request_roi) eq_refl)
             (Some "Punjab") (Some "Ludhiana")).
  - exact (proj2 (proj1 (region_validation Demo.gee initial_fire_data
                           Demo.request_both) eq_refl)
             Demo.drawn Demo.polygon (GeometryOfJson Demo.polygon)
             eq_refl eq_refl eq_refl).
  - exact (proj1 (proj2 (region_validation Demo.gee initial_fire_data
                           Demo.request_neither) eq_refl)).
Defined.

(** ** The district that is not found *)

(** A lookup that matches no feature of the boundary dataset raises
    [HTTPException(404)] inside the [try] block. *)
Lemma district_not_found_raised (gee : EarthEngine)
    (request : FireDetectionRequest) (st di : string) :
  truthy_dict (roi request) = false ->
  state request = Some st -> district request = Some di ->
  truthy_str (Some st) = true -> truthy_str (Some di) = true ->
  gaul_level2 gee st di = Return [] ->
  run_fire_detection_try gee request =
  Raise (HTTPException 404 "District not found").
Proof.
  intros Hroi Hst Hdi Ht1 Ht2 Hg.
  unfold run_fire_detection_try, resolve_region.
  rewrite Hroi, Hst, Hdi, Ht1, Ht2. cbn [andb].
  unfold get_district_boundary. rewrite Hg. reflexivity.
Qed.

(** C4, on the code. For the district that does not exist the endpoint
    answers with status 200: the [HTTPException(404)] raised in the [try]
    block is caught by [except Exception] of the same function and comes
    back as an ordinary dictionary, so that no HTTP error response is
    produced. *)
Theorem district_not_found_swallowed :
  run_fire_detection_try Demo.gee Demo.request_unknown_district =
  Raise (HTTPException 404 "District not found") /\
  detect_fire_api Demo.gee initial_fire_data Demo.request_unknown_district =
  (initial_fire_data, Http200 (Error (HTTPException 404 "District not found"))) /\
  (forall code detail,
      snd (detect_fire_api Demo.gee initial_fire_data
             Demo.request_unknown_district) <> HttpError code detail).
Proof.
  split; [|split].
  - apply (district_not_found_raised Demo.gee Demo.request_unknown_district
             "Punjab" "Atlantis"); reflexivity.
  - reflexivity.
  - intros code detail. cbn. discriminate.
Qed.

(** ** Export *)

(** C9. With an empty stored result the export fails with the not-found
    error (404); with a non-empty one it returns one row for each stored
    detection, in order, with the columns id, latitude, longitude, severity,
    dnbr, bai, dndvi. *)
Theorem export_csv_api_spec (current_fire_data : FireData) :
  (hotspots current_fire_data = [] ->
   export_csv_api current_fire_data =
   HttpError 404 "No data available to export") /\
  (hotspots current_fire_data <> [] ->
   exists export,
     export_csv_api current_fire_data = Http200 export /\
     List.length (rows export) = List.length (hotspots current_fire_data) /\
     forall (i : nat) (spot : Hotspot),
       nth_error (hotspots current_fire_data) i = Some spot ->
       nth_error (rows export) i =
       Some [Some (CellInt (id spot)); Some (CellNum (latitude spot));
             Some (CellNum (longitude spot));
             Some (CellStr (severity_label (severity spot)));
             Some (CellNum (dnbr spot)); Some (CellNum (bai spot));
             Some (CellNum (dndvi spot))]).
Proof.
  unfold export_csv_api. split.
  - intros ->. reflexivity.
  - intros Hne. destruct (hotspots current_fire_data) as [|h t] eqn:E;
      [contradiction|].
    eexists. split; [reflexivity|]. cbn [rows]. split.
    + apply length_map.
    + intros i spot Hi. rewrite nth_error_map, Hi. reflexivity.
Qed.

(** Before any run the export is refused; after the run of the small world
    it has two rows. *)
Lemma export_csv_api_spec_witness :
  export_csv_api initial_fire_data = HttpError 404 "No data available to export" /\
  exists export,
    export_csv_api
      (fst (run_fire_detection Demo.gee initial_fire_data Demo.request_roi)) =
    Http200 export /\
    List.length (rows export) = 2%nat.
Proof.
  split.
  - exact (proj1 (export_csv_api_spec initial_fire_data) eq_refl).
  - destruct (proj2 (export_csv_api_spec
                       (fst (run_fire_detection Demo.gee initial_fire_data
                               Demo.request_roi))))
      as (export & Hx & Hlen & _).
    + vm_compute. discriminate.
    + exists export. split; [exact Hx|]. rewrite Hlen. vm_compute. reflexivity.
Defined.

(** ** The maximum *)

Lemma ltb_numbers (x y : float) :
  (x <? y) = true -> (x =? x) = true /\ (y =? y) = true.
Proof.
  intros H. apply ltb_key in H. destruct H as (a & b & Ha & Hb & _).
  split; apply eqb_refl_key; eauto.
Qed.

Lemma leb_of_ltb (x y : float) : (x <? y) = true -> (x <=? y) = true.
Proof.
  intros H. apply ltb_key in H. destruct H as (a & b & Ha & Hb & Hlt).
  apply leb_key. exists a, b. auto using key_lt_asym.
Qed.

Lemma leb_refl (x : float) : (x =? x) = true -> (x <=? x) = true.
Proof.
  intros H. apply eqb_refl_key in H. destruct H as (a & Ha).
  apply leb_key. exists a, a. auto using key_lt_irrefl.
Qed.

Lemma key_lt_total (a b : Key) : key_lt a b \/ a = b \/ key_lt b a.
Proof.
  pose proof (key_compare_spec a b) as H.
  destruct (key_compare a b); auto.
Qed.

Lemma leb_trans (x y z : float) :
  (x <=? y) = true -> (y <=? z) = true -> (x <=? z) = true.
Proof.
  intros Hxy Hyz.
  apply leb_key in Hxy. destruct Hxy as (a & b & Ha & Hb & Hab).
  apply leb_key in Hyz. destruct Hyz as (b' & c & Hb' & Hc & Hbc).
  rewrite Hb in Hb'. injection Hb' as <-.
  apply leb_key. exists a, c. repeat split; try assumption.
  intros Hca.
  destruct (key_lt_total a b) as [H | [H | H]].
  - apply Hbc. exact (key_lt_trans c a b Hca H).
  - subst b. exact (Hbc Hca).
  - exact (Hab H).
Qed.

Lemma leb_not_ltb (x y : float) : (x <=? y) = true -> (y <? x) = false.
Proof.
  intros H. destruct (y <? x) eqn:E; [|reflexivity].
  apply ltb_not_leb in E. rewrite E in H. discriminate.
Qed.

(** When the first item is [nan] it stays the maximum. *)
Lemma py_max_from_nan (items : list float) (maxitem : float) :
  (maxitem =? maxitem) = false -> py_max_from maxitem items = maxitem.
Proof.
  intros Hnan. induction items as [|item rest IH]; [reflexivity|].
  cbn [py_max_from]. destruct (maxitem <? item) eqn:E; [|exact IH].
  apply ltb_numbers in E. destruct E as [E _]. rewrite E in Hnan. discriminate.
Qed.

(** Starting from a number, the loop ends on a number of the list that the
    first item does not exceed and that no later item exceeds. *)
Lemma py_max_from_number (items : list float) :
  forall maxitem : float,
    (maxitem =? maxitem) = true ->
    let r := py_max_from maxitem items in
    (r =? r) = true /\ In r (maxitem :: items) /\ (maxitem <=? r) = true /\
    forall y, In y items -> (r <? y) = false.
Proof.
  induction items as [|item rest IH]; intros maxitem Hm; cbn [py_max_from].
  - cbn zeta. repeat split; auto using leb_refl.
    + left. reflexivity.
    + intros y [].
  - destruct (maxitem <? item) eqn:E.
    + destruct (ltb_numbers _ _ E) as [_ Hi].
      destruct (IH item Hi) as (Hr & Hin & Hle & Hrest).
      cbn zeta. repeat split.
      * exact Hr.
      * right. exact Hin.
      * exact (leb_trans _ _ _ (leb_of_ltb _ _ E) Hle).
      * intros y [<- | Hy]; [exact (leb_not_ltb _ _ Hle) | exact (Hrest y Hy)].
    + destruct (IH maxitem Hm) as (Hr & Hin & Hle & Hrest).
      cbn zeta. repeat split.
      * exact Hr.
      * destruct Hin as [<- | Hin]; [left; reflexivity | right; right; exact Hin].
      * exact Hle.
      * intros y [<- | Hy]; [|exact (Hrest y Hy)].
        destruct (item =? item) eqn:Hi.
        -- apply leb_not_ltb.
           exact (leb_trans _ _ _ (leb_total _ _ Hm Hi E) Hle).
        -- destruct (py_max_from maxitem rest <? item) eqn:E2; [|reflexivity].
           apply ltb_numbers in E2. destruct E2 as [_ E2].
           rewrite E2 in Hi. discriminate.
Qed.

(** [max(items, default=...)] of a list that is not empty is one of its
    items, no item exceeds it, and when every item is a number (not [nan])
    every item is at most it. *)
Lemma py_max_spec (items : list float) (default : float) :
  items <> [] ->
  In (py_max items default) items /\
  (forall y, In y items -> (py_max items default <? y) = false) /\
  ((forall y, In y items -> (y =? y) = true) ->
   forall y, In y items -> (y <=? py_max items default) = true).
Proof.
  destruct items as [|first rest]; [contradiction|]. intros _.
  cbn [py_max].
  destruct (first =? first) eqn:Hf.
  - destruct (py_max_from_number rest first Hf) as (Hr & Hin & Hle & Hrest).
    cbn zeta in *. repeat split.
    + exact Hin.
    + intros y [<- | Hy]; [exact (leb_not_ltb _ _ Hle) | exact (Hrest y Hy)].
    + intros Hnum y Hy.
      destruct Hy as [<- | Hy]; [exact Hle|].
      apply leb_total; [exact Hr | | exact (Hrest y Hy)].
      apply Hnum. right. exact Hy.
  - rewrite (py_max_from_nan rest first Hf). repeat split.
    + left. reflexivity.
    + intros y _. destruct (first <? y) eqn:E; [|reflexivity].
      apply ltb_numbers in E. destruct E as [E _]. rewrite E in Hf. discriminate.
    + intros Hnum. rewrite (Hnum first (or_introl eq_refl)) in Hf. discriminate.
Qed.

(** ** The area *)

Lemma area_exact_from_spec (n : nat) :
  forall count : Z,
    area_exact_from n count = true ->
    forall k : Z, (count <= k < count + Z.of_nat n)%Z -> area_exact k = true.
Proof.
  induction n as [|n IH]; cbn [area_exact_from]; intros count H k Hk; [lia|].
  apply andb_true_iff in H. destruct H as [H1 H2].
  destruct (Z.eq_dec k count) as [-> | Hne]; [exact H1|].
  apply (IH (count + 1)%Z H2). lia.
Qed.

(** Every count from 0 to the sampling bound, by evaluation. *)
Lemma area_exact_to_bound : area_exact_from 20001 0 = true.
Proof. vm_compute. reflexivity. Qed.

(** Up to the number of pixels asked of the sampler, the area is the
    binary64 of the decimal [count * 0.04]. *)
Lemma area_hectares_exact (count : nat) :
  (Z.of_nat count <= numPixels)%Z ->
  area_hectares count = decimal_float false (4 * Z.of_nat count) 2.
Proof.
  intros Hb. unfold numPixels in Hb.
  assert (Hn : Z.of_nat 20001 = 20001%Z) by (vm_compute; reflexivity).
  assert (H : area_exact (Z.of_nat count) = true).
  { apply (area_exact_from_spec 20001 0 area_exact_to_bound).
    rewrite Hn. lia. }
  unfold area_exact in H. apply FloatAxioms.Leibniz.eqb_spec in H. exact H.
Qed.

(** The product itself is not always that number: for 35 detections
    [35 * 0.04] is [1.4000000000000001], and rounding gives [1.4]. *)
Lemma area_hectares_35 :
  float_of_Z 35 * 0.04 = 1.4000000000000001 /\
  area_hectares 35 = 1.4 /\
  PrimFloat.Leibniz.eqb (float_of_Z 35 * 0.04) (area_hectares 35) = false.
Proof. repeat split; vm_compute; reflexivity. Qed.

(** ** The aggregates of a run *)

(** What a completed run stores and returns, in terms of its detections. *)
Lemma run_fire_detection_success (gee : EarthEngine)
    (current_fire_data current : FireData) (request : FireDetectionRequest)
    (r : DetectionResult) :
  run_fire_detection gee current_fire_data request = (current, Success r) ->
  fire_hotspots r = List.length (hotspots current) /\
  fire_area_hectares r = area_hectares (List.length (hotspots current)) /\
  max_dnbr r = py_max (map dnbr (hotspots current)) 0.0 /\
  map properties (hotspots_geojson r) = hotspots current.
Proof.
  unfold run_fire_detection, run_fire_detection_try.
  destruct (resolve_region gee request) as [[[[g b] st] di]|e]; cbn [bind];
    [|discriminate].
  intros H. injection H as <- <-. cbn.
  repeat split. rewrite map_map. cbn. apply map_id.
Qed.

(** C8. For every completed run of at most [numPixels] detections, the
    area returned is the detection count times 0.04 exactly (the binary64 of
    that two-decimal number), and the maximum returned is 0.0 when there is
    no detection and otherwise the dnbr of a detection that none exceeds. *)
Theorem detection_aggregates (gee : EarthEngine)
    (current_fire_data current : FireData) (request : FireDetectionRequest)
    (r : DetectionResult) :
  run_fire_detection gee current_fire_data request = (current, Success r) ->
  (Z.of_nat (fire_hotspots r) <= numPixels)%Z ->
  fire_hotspots r = List.length (hotspots current) /\
  fire_area_hectares r = decimal_float false (4 * Z.of_nat (fire_hotspots r)) 2 /\
  (hotspots current = [] -> max_dnbr r = 0.0) /\
  (hotspots current <> [] ->
   (exists h, In h (hotspots current) /\ max_dnbr r = dnbr h) /\
   (forall h, In h (hotspots current) -> (max_dnbr r <? dnbr h) = false) /\
   ((forall h, In h (hotspots current) -> (dnbr h =? dnbr h) = true) ->
    forall h, In h (hotspots current) -> (dnbr h <=? max_dnbr r) = true)).
Proof.
  intros Hrun Hbound.
  destruct (run_fire_detection_success _ _ _ _ _ Hrun)
    as (Hcount & Harea & Hmax & _).
  split; [exact Hcount|]. split; [|split].
  - rewrite Harea, Hcount. apply area_hectares_exact.
    rewrite <- Hcount. exact Hbound.
  - intros Hnil. rewrite Hmax, Hnil. reflexivity.
  - intros Hne.
    assert (Hne' : map dnbr (hotspots current) <> []).
    { destruct (hotspots current); [contradiction | discriminate]. }
    destruct (py_max_spec (map dnbr (hotspots current)) 0.0 Hne')
      as (Hin & Hnone & Hall).
    rewrite <- Hmax in Hin, Hnone, Hall. repeat split.
    + apply in_map_iff in Hin. destruct Hin as (h & Hh & Hi). eauto.
    + intros h Hh. apply Hnone. apply in_map. exact Hh.
    + intros Hnum h Hh. apply Hall; [|apply in_map; exact Hh].
      intros y Hy. apply in_map_iff in Hy. destruct Hy as (h' & <- & Hh').
      apply Hnum. exact Hh'.
Qed.

(** The run of the small world: two detections, 0.08 hectares, and the
    larger of the two dnbr values. *)
Lemma detection_aggregates_witness :
  exists current r,
    run_fire_detection Demo.gee initial_fire_data Demo.request_roi =
    (current, Success r) /\
    fire_hotspots r = 2%nat /\
    fire_area_hectares r = 0.08 /\
    max_dnbr r = 0.788 /\
    (forall h, In h (hotspots current) -> (max_dnbr r <? dnbr h) = false).
Proof.
  destruct (run_fire_detection Demo.gee initial_fire_data Demo.request_roi)
    as [current response] eqn:Hrun.
  destruct response as [r|e]; [|vm_compute in Hrun; discriminate].
  exists current, r.
  assert (Hc : fire_hotspots r = 2%nat).
  { vm_compute in Hrun. injection Hrun as <- <-. reflexivity. }
  assert (Hb : (Z.of_nat (fire_hotspots r) <= numPixels)%Z).
  { rewrite Hc. vm_compute. discriminate. }
  destruct (detection_aggregates Demo.gee initial_fire_data current
              Demo.request_roi r Hrun Hb) as (_ & Harea & _ & Hmax).
  split; [reflexivity|]. split; [exact Hc|]. split; [|split].
  - rewrite Harea, Hc. vm_compute. reflexivity.
  - vm_compute in Hrun. injection Hrun as <- <-. reflexivity.
  - apply Hmax. vm_compute in Hrun. injection Hrun as <- <-. discriminate.
Defined.

(** * Part III: more of the code *)

(** ** The classifier is monotone *)

Ltac reach w H :=
  match goal with
  | E : (?c <=? _) = true |- _ =>
      rewrite (leb_trans c _ w E H)
  end.

(** X1. A larger dNBR never gets a lower severity. *)
Theorem get_burn_severity_monotone (v w : float) :
  (v <=? w) = true ->
  Nat.le (severity_rank (get_burn_severity (Some v)))
         (severity_rank (get_burn_severity (Some w))).
Proof.
  intros H. unfold get_burn_severity.
  destruct (0.66 <=? v) eqn:E1; [reach w H; cbn; lia|].
  destruct (0.44 <=? v) eqn:E2;
    [reach w H; destruct (0.66 <=? w); cbn; lia|].
  destruct (0.27 <=? v) eqn:E3;
    [reach w H; destruct (0.66 <=? w), (0.44 <=? w); cbn; lia|].
  destruct (0.10 <=? v) eqn:E4;
    [reach w H; destruct (0.66 <=? w), (0.44 <=? w), (0.27 <=? w); cbn; lia|].
  cbn. lia.
Qed.

Lemma get_burn_severity_monotone_witness :
  Nat.le (severity_rank (get_burn_severity (Some 0.3)))
         (severity_rank (get_burn_severity (Some 0.7))).
Proof. exact (get_burn_severity_monotone 0.3 0.7 eq_refl). Defined.

(** ** The cloud mask *)

Lemma land_bit_zero (a : Z) (n : Z) :
  (0 <= n)%Z -> (Z.land a (Z.shiftl 1 n) =? 0)%Z = negb (Z.testbit a n).
Proof.
  intros Hn. rewrite Z.shiftl_1_l.
  destruct (Z.testbit a n) eqn:Hb; cbn [negb].
  - apply Z.eqb_neq. intros H0.
    assert (Ht : Z.testbit (Z.land a (2 ^ n)) n = true).
    { rewrite Z.land_spec, Hb, Z.pow2_bits_true; auto. }
    rewrite H0, Z.bits_0 in Ht. discriminate.
  - apply Z.eqb_eq. apply Z.bits_inj'. intros m Hm.
    rewrite Z.land_spec, Z.bits_0, Z.pow2_bits_eqb by exact Hn.
    destruct (Z.eqb_spec n m) as [<- | Hne].
    + rewrite Hb. reflexivity.
    + apply andb_false_r.
Qed.

(** X2. [mask_s2_clouds] keeps a pixel of a band exactly when bit 10
    (cloud) and bit 11 (cirrus) of its [QA60] value are both unset, and the
    value kept is the band's value divided by 10000. *)
Theorem mask_s2_clouds_keeps (image : S2Image) (b : string) (p : Pixel)
    (x : float) :
  mask_s2_clouds image b p = Some x <->
  exists qa v,
    band image "QA60" p = Some qa /\
    Z.testbit qa 10 = false /\ Z.testbit qa 11 = false /\
    band image b p = Some v /\ x = float_of_Z v / 10000.
Proof.
  unfold mask_s2_clouds, cloud_bit_mask, cirrus_bit_mask.
  destruct (band image "QA60" p) as [qa|].
  - rewrite !land_bit_zero by lia.
    destruct (Z.testbit qa 10) eqn:B10; cbn [negb andb].
    + split; [discriminate|].
      intros (qa' & v & Hq & H10 & _). injection Hq as <-.
      rewrite H10 in B10. discriminate.
    + destruct (Z.testbit qa 11) eqn:B11; cbn [negb].
      * split; [discriminate|].
        intros (qa' & v & Hq & _ & H11 & _). injection Hq as <-.
        rewrite H11 in B11. discriminate.
      * destruct (band image b p) as [v|].
        -- split.
           ++ intros H. injection H as <-. exists qa, v. auto.
           ++ intros (qa' & v' & _ & _ & _ & Hv & ->). injection Hv as <-.
              reflexivity.
        -- split; [discriminate|].
           intros (qa' & v' & _ & _ & _ & Hv & _). discriminate.
  - split; [discriminate|]. intros (qa & v & Hq & _). discriminate.
Qed.

(** A clear pixel is kept and scaled; a cloudy one and one under cirrus are
    dropped. *)
Lemma mask_s2_clouds_keeps_witness :
  mask_s2_clouds (Faults.qa_image 0) "B8" (0, 0)%Z = Some 0.25 /\
  mask_s2_clouds (Faults.qa_image 1024) "B8" (0, 0)%Z = None /\
  mask_s2_clouds (Faults.qa_image 2048) "B8" (0, 0)%Z = None.
Proof.
  split; [|split; reflexivity].
  apply (proj2 (mask_s2_clouds_keeps (Faults.qa_image 0) "B8" (0, 0)%Z 0.25)).
  exists 0%Z, 2500%Z. repeat split; reflexivity.
Defined.

(** ** The agricultural mask *)

(** X3. When the land-cover dataset has an image for the year, the
    agricultural mask is true exactly on the pixels of class 12 or 14 and is
    masked everywhere else: it is never false. *)
Theorem agricultural_mask_cropland (gee : EarthEngine) (year : Z)
    (landcover : LandCover) :
  mcd12q1 gee year = Return (Some landcover) ->
  exists agri,
    get_agricultural_mask gee year = Some (Return agri) /\
    forall p : Pixel,
      (agri p = Some true <->
       landcover p = Some 12%Z \/ landcover p = Some 14%Z) /\
      agri p <> Some false.
Proof.
  intros H. unfold get_agricultural_mask, mcd12q1_first. rewrite H.
  exists (cropland_mask landcover). split; [reflexivity|].
  intros p. apply cropland_mask_true.
Qed.

Lemma agricultural_mask_cropland_witness :
  exists agri,
    get_agricultural_mask Demo.gee 2023 = Some (Return agri) /\
    forall p : Pixel,
      (agri p = Some true <-> Some 12%Z = Some 12%Z \/ Some 12%Z = Some 14%Z) /\
      agri p <> Some false.
Proof.
  exact (agricultural_mask_cropland Demo.gee 2023 (fun _ => Some 12%Z) eq_refl).
Defined.

(** ** What the sampler can see *)

Lemma analysis_image_inversion (dnbr_r bai_r dndvi_r : Raster)
    (agri_mask : option MaskRaster) (p : Pixel) (d b v : float) :
  analysis_image dnbr_r bai_r dndvi_r agri_mask p = Some (d, b, v) ->
  dnbr_r p = Some d /\ bai_r p = Some b /\ dndvi_r p = Some v /\
  (0.10 <? d) = true /\ (89 <? b) = true /\ (0.2 <? v) = true /\
  analysis_image dnbr_r bai_r dndvi_r None p = Some (d, b, v).
Proof.
  unfold analysis_image, updateMask, final_mask, burn_mask, addBands3,
    dnbr_threshold, bai_threshold, dndvi_threshold.
  assert (Hcore :
    match And (And (gt dnbr_r 0.10) (gt bai_r 89)) (gt dndvi_r 0.2) p with
    | Some true =>
        match dnbr_r p, bai_r p, dndvi_r p with
        | Some x, Some y, Some z => Some (x, y, z)
        | _, _, _ => None
        end
    | _ => None
    end = Some (d, b, v) ->
    dnbr_r p = Some d /\ bai_r p = Some b /\ dndvi_r p = Some v /\
    (0.10 <? d) = true /\ (89 <? b) = true /\ (0.2 <? v) = true).
  { unfold And, gt.
    destruct (dnbr_r p) as [x|], (bai_r p) as [y|], (dndvi_r p) as [z|];
      try discriminate.
    destruct (0.10 <? x) eqn:E1, (89 <? y) eqn:E2, (0.2 <? z) eqn:E3;
      cbn; try discriminate.
    intros H. injection H as <- <- <-. auto 7. }
  destruct agri_mask as [agri|].
  - unfold And at 1.
    destruct (And (And (gt dnbr_r 0.10) (gt bai_r 89)) (gt dndvi_r 0.2) p)
      as [[]|] eqn:Eb; try discriminate.
    + destruct (agri p) as [[]|]; cbn; try discriminate.
      intros H. destruct (Hcore H) as (H1 & H2 & H3 & H4 & H5 & H6).
      repeat split; assumption.
    + destruct (agri p) as [[]|]; cbn; discriminate.
  - intros H. destruct (Hcore H) as (H1 & H2 & H3 & H4 & H5 & H6).
    repeat split; assumption.
Qed.

(** X4. At a pixel left in the analysis image the three values are the
    values of the three index rasters, unchanged, each above its threshold;
    and the pixel is also left in the image made without the agricultural
    mask: that mask only removes pixels. *)
Theorem analysis_image_values (dnbr_r bai_r dndvi_r : Raster)
    (agri_mask : option MaskRaster) (p : Pixel) (d b v : float) :
  analysis_image dnbr_r bai_r dndvi_r agri_mask p = Some (d, b, v) ->
  dnbr_r p = Some d /\ bai_r p = Some b /\ dndvi_r p = Some v /\
  (0.10 <? d) = true /\ (89 <? b) = true /\ (0.2 <? v) = true /\
  analysis_image dnbr_r bai_r dndvi_r None p = Some (d, b, v).
Proof. exact (analysis_image_inversion dnbr_r bai_r dndvi_r agri_mask p d b v). Qed.

Lemma analysis_image_values_witness :
  (0.10 <? 0.5) = true /\ (89 <? 120) = true /\ (0.2 <? 0.3) = true /\
  analysis_image (fun _ => Some 0.5) (fun _ => Some 120) (fun _ => Some 0.3)
    None (3, 4)%Z = Some (0.5, 120, 0.3).
Proof.
  destruct (analysis_image_values
              (fun _ => Some 0.5) (fun _ => Some 120) (fun _ => Some 0.3)
              (Some (fun _ => Some true)) (3, 4)%Z 0.5 120 0.3 eq_refl)
    as (_ & _ & _ & H1 & H2 & H3 & H4).
  auto.
Defined.

(** ** From sampled features to detections *)

Lemma round_prop_return (v : option float) (n : nat) (x : float) :
  round_prop v n = Return x -> exists y, v = Some y /\ x = py_round y n.
Proof.
  destruct v as [y|]; cbn; [|discriminate].
  intros H. injection H as <-. eauto.
Qed.

Lemma props_get_some (v : prop_value) :
  v <> Null -> exists y, props_get v = Some y.
Proof. destruct v; cbn; eauto. intros H. contradiction. Qed.

Lemma get_burn_severity_documented (v : float) :
  In (get_burn_severity (Some v)) documented_levels.
Proof.
  unfold get_burn_severity, documented_levels.
  destruct (0.66 <=? v); [simpl; auto|].
  destruct (0.44 <=? v); [simpl; auto|].
  destruct (0.27 <=? v); [simpl; auto|].
  destruct (0.10 <=? v); simpl; auto 6.
Qed.

(** One detection: made when no property is null, from the feature's own
    values. *)
Lemma hotspot_of_feature_return (i : nat) (feature : Feature) (spot : Hotspot) :
  hotspot_of_feature i feature = Return spot ->
  has_null feature = false /\ made_from i feature spot /\
  exists d b v,
    props_get (prop_dNBR feature) = Some d /\ dnbr spot = py_round d 3 /\
    props_get (prop_BAI feature) = Some b /\ bai spot = py_round b 2 /\
    props_get (prop_dNDVI feature) = Some v /\ dndvi spot = py_round v 3.
Proof.
  unfold hotspot_of_feature. intros H.
  destruct (round_prop (props_get (prop_dNBR feature)) 3) as [d'|e] eqn:E1;
    cbn [bind] in H; [|discriminate].
  destruct (round_prop (props_get (prop_BAI feature)) 2) as [b'|e] eqn:E2;
    cbn [bind] in H; [|discriminate].
  destruct (round_prop (props_get (prop_dNDVI feature)) 3) as [v'|e] eqn:E3;
    cbn [bind] in H; [|discriminate].
  injection H as <-.
  apply round_prop_return in E1. destruct E1 as (d & Hd & ->).
  apply round_prop_return in E2. destruct E2 as (b & Hb & ->).
  apply round_prop_return in E3. destruct E3 as (v & Hv & ->).
  split; [|split].
  - unfold has_null.
    destruct (prop_dNBR feature); try discriminate;
      destruct (prop_BAI feature); try discriminate;
      destruct (prop_dNDVI feature); try discriminate; reflexivity.
  - unfold made_from. cbn [id latitude longitude severity].
    repeat split. rewrite Hd. apply get_burn_severity_documented.
  - exists d, b, v. cbn [dnbr bai dndvi]. auto 6.
Qed.

Lemma hotspot_of_feature_null (i : nat) (feature : Feature) :
  has_null feature = true -> exists e, hotspot_of_feature i feature = Raise e.
Proof.
  unfold hotspot_of_feature, has_null.
  destruct (prop_dNBR feature) as [| |d]; cbn;
    destruct (prop_BAI feature) as [| |b]; cbn;
    destruct (prop_dNDVI feature) as [| |v]; cbn;
    try discriminate; intros _; eexists; reflexivity.
Qed.

Lemma hotspot_of_feature_total (i : nat) (feature : Feature) :
  has_null feature = false -> exists spot, hotspot_of_feature i feature = Return spot.
Proof.
  unfold hotspot_of_feature, has_null.
  destruct (prop_dNBR feature) as [| |d]; cbn;
    destruct (prop_BAI feature) as [| |b]; cbn;
    destruct (prop_dNDVI feature) as [| |v]; cbn;
    try discriminate; intros _; eexists; reflexivity.
Qed.

Lemma all_hotspots_from_cons (i : nat) (feature : Feature)
    (rest : list Feature) (spots : list Hotspot) :
  all_hotspots_from i (feature :: rest) = Return spots ->
  exists spot others,
    spots = spot :: others /\
    hotspot_of_feature i feature = Return spot /\
    all_hotspots_from (S i) rest = Return others.
Proof.
  cbn [all_hotspots_from].
  destruct (hotspot_of_feature i feature) as [spot|e]; cbn [bind]; [|discriminate].
  destruct (all_hotspots_from (S i) rest) as [others|e]; cbn [bind]; [|discriminate].
  intros H. injection H as <-. eauto.
Qed.

(** X5. When the loop over the sampled features completes, there is one
    detection for each feature, in order; the detection of the feature at
    position [k] has id [k + 1], the feature's coordinates, the severity of
    the feature's dNBR as sampled (not rounded), which is one of the five
    levels, and the three values rounded to 3, 2 and 3 decimals. *)
Theorem all_hotspots_from_features (features : list Feature) :
  forall (i : nat) (spots : list Hotspot),
    all_hotspots_from i features = Return spots ->
    List.length spots = List.length features /\
    forall (k : nat) (feature : Feature),
      nth_error features k = Some feature ->
      exists spot d b v,
        nth_error spots k = Some spot /\
        made_from (i + k) feature spot /\
        props_get (prop_dNBR feature) = Some d /\ dnbr spot = py_round d 3 /\
        props_get (prop_BAI feature) = Some b /\ bai spot = py_round b 2 /\
        props_get (prop_dNDVI feature) = Some v /\ dndvi spot = py_round v 3.
Proof.
  induction features as [|feature rest IH]; intros i spots H.
  - cbn in H. injection H as <-. split; [reflexivity|].
    intros [|k] f Hf; discriminate.
  - destruct (all_hotspots_from_cons _ _ _ _ H) as (spot & others & -> & Hs & Ho).
    destruct (IH (S i) others Ho) as (Hlen & Hnth).
    split; [cbn; rewrite Hlen; reflexivity|].
    intros [|k] f Hf.
    + cbn in Hf. injection Hf as <-.
      destruct (hotspot_of_feature_return _ _ _ Hs)
        as (_ & Hm & d & b & v & H1 & H2 & H3 & H4 & H5 & H6).
      exists spot, d, b, v. rewrite Nat.add_0_r. cbn. auto 10.
    + cbn in Hf. destruct (Hnth k f Hf)
        as (spot' & d & b & v & Hk & Hm & Hrest).
      exists spot', d, b, v.
      replace (i + S k)%nat with (S i + k)%nat by lia. cbn. auto.
Qed.

Lemma all_hotspots_from_features_witness :
  exists spot d,
    nth_error
      (match all_hotspots_from 0 [Faults.good_feature; Faults.bare_feature] with
       | Return spots => spots
       | Raise _ => []
       end) 1 = Some spot /\
    id spot = 2%nat /\ severity spot = UnburnedOrRegrowth /\
    props_get (prop_dNBR Faults.bare_feature) = Some d /\
    dnbr spot = py_round d 3.
Proof.
  destruct (all_hotspots_from 0 [Faults.good_feature; Faults.bare_feature])
    as [spots|e] eqn:E; [|vm_compute in E; discriminate].
  destruct (all_hotspots_from_features _ 0 spots E) as (_ & Hnth).
  destruct (Hnth 1%nat Faults.bare_feature eq_refl)
    as (spot & d & b & v & Hk & (Hid & _ & _ & Hsev & _) & Hd & Hr & _).
  exists spot, d. repeat split; assumption.
Defined.

Lemma all_hotspots_from_cases (features : list Feature) (i : nat) :
  (existsb has_null features = true ->
   exists e, all_hotspots_from i features = Raise e) /\
  (existsb has_null features = false ->
   exists spots, all_hotspots_from i features = Return spots).
Proof.
  revert i. induction features as [|feature rest IH]; intros i.
  - split; [discriminate|]. intros _. eexists. reflexivity.
  - cbn [existsb all_hotspots_from]. split.
    + intros H. apply orb_true_iff in H.
      destruct (has_null feature) eqn:Hn.
      * destruct (hotspot_of_feature_null i feature Hn) as (e & ->).
        eexists. reflexivity.
      * destruct H as [H | H]; [discriminate|].
        destruct (hotspot_of_feature_total i feature Hn) as (spot & ->).
        cbn [bind]. destruct (proj1 (IH (S i)) H) as (e & ->).
        eexists. reflexivity.
    + intros H. apply orb_false_iff in H. destruct H as [Hn Hr].
      destruct (hotspot_of_feature_total i feature Hn) as (spot & ->).
      cbn [bind]. destruct (proj2 (IH (S i)) Hr) as (others & ->).
      eexists. reflexivity.
Qed.

(** X6. A feature with a null property stops the loop with an exception;
    without any, the loop completes. *)
Theorem all_hotspots_from_null (features : list Feature) (i : nat) :
  (existsb has_null features = true ->
   exists e, all_hotspots_from i features = Raise e) /\
  (existsb has_null features = false ->
   exists spots, all_hotspots_from i features = Return spots).
Proof. exact (all_hotspots_from_cases features i). Qed.

Lemma all_hotspots_from_null_witness :
  (exists e,
      all_hotspots_from 0 [Faults.good_feature; Faults.null_feature] = Raise e) /\
  (exists spots,
      all_hotspots_from 0 [Faults.good_feature; Faults.bare_feature] = Return spots).
Proof.
  split.
  - exact (proj1 (all_hotspots_from_null
                    [Faults.good_feature; Faults.null_feature] 0) eq_refl).
  - exact (proj2 (all_hotspots_from_null
                    [Faults.good_feature; Faults.bare_feature] 0) eq_refl).
Defined.

(** What the [try] block of the pipeline returns: nothing, or the detections
    made from the features that the sampler found in an analysis image. *)
Lemma extract_burn_scars_s2_try_return (gee : EarthEngine)
    (roi_geometry : Geometry) (start_date_str end_date_str : string)
    (spots : list Hotspot) :
  extract_burn_scars_s2_try gee roi_geometry start_date_str end_date_str =
  Return spots ->
  spots = [] \/
  exists dnbr_r bai_r dndvi_r agri_mask features,
    sample gee (analysis_image dnbr_r bai_r dndvi_r agri_mask) roi_geometry
      sample_scale numPixels tileScale = Return features /\
    all_hotspots_from 0 features = Return spots.
Proof.
  unfold extract_burn_scars_s2_try.
  destruct (ee_Date gee start_date_str) as [s|e]; cbn [bind]; [|discriminate].
  destruct (ee_Date gee end_date_str) as [t|e]; cbn [bind]; [|discriminate].
  unfold fire_windows.
  destruct (s2_sr_harmonized gee roi_geometry 40 (advance_day (-60) s)
              (advance_day (-15) s)) as [pre|e]; cbn [bind]; [|discriminate].
  destruct (s2_sr_harmonized gee roi_geometry 40 s t) as [post|e];
    cbn [bind]; [|discriminate].
  unfold analyse_collections.
  destruct ((List.length pre =? 0)%nat || (List.length post =? 0)%nat).
  - intros H. injection H as <-. left. reflexivity.
  - destruct (index_rasters gee pre post) as [[d b] v].
    destruct (date_year gee s) as [y|e]; cbn [bind]; [|discriminate].
    destruct (evaluate_mask (get_agricultural_mask gee (agri_mask_year y)))
      as [agri|e]; cbn [bind]; [|discriminate].
    destruct (sample gee (analysis_image d b v agri) roi_geometry
                sample_scale numPixels tileScale)
      as [features|e] eqn:Hs; cbn [bind]; [|discriminate].
    intros H. right. do 5 eexists. split; [exact Hs | exact H].
Qed.

(** X7. Whatever the service answers, the detections returned by the
    pipeline carry the ids 1, 2, ..., in order, and each has one of the five
    documented severities: ['Unknown'] is never returned. *)
Theorem extract_burn_scars_s2_ids (gee : EarthEngine) (roi_geometry : Geometry)
    (start_date_str end_date_str : string) :
  let spots :=
    extract_burn_scars_s2 gee roi_geometry start_date_str end_date_str in
  map id spots = seq 1 (List.length spots) /\
  Forall (fun spot => In (severity spot) documented_levels) spots.
Proof.
  unfold extract_burn_scars_s2.
  destruct (extract_burn_scars_s2_try gee roi_geometry start_date_str
              end_date_str) as [spots|e] eqn:E; cbn zeta;
    [|split; [reflexivity | constructor]].
  destruct (extract_burn_scars_s2_try_return _ _ _ _ _ E)
    as [-> | (a & b & c & m & features & _ & Hall)];
    [split; [reflexivity | constructor]|].
  clear E. revert Hall. generalize 0%nat as i. revert spots.
  induction features as [|feature rest IH]; intros spots i H.
  - cbn in H. injection H as <-. split; [reflexivity | constructor].
  - destruct (all_hotspots_from_cons _ _ _ _ H) as (spot & others & -> & Hs & Ho).
    destruct (IH others (S i) Ho) as (Hids & Hsev).
    destruct (hotspot_of_feature_return _ _ _ Hs) as (_ & Hm & _).
    destruct Hm as (Hid & _ & _ & _ & Hin).
    split.
    + cbn [map List.length seq]. rewrite Hid, Hids.
      replace (i + 1)%nat with (S i) by lia. reflexivity.
    + constructor; assumption.
Qed.

(** ** Detections of burnt pixels *)

Lemma get_burn_severity_burnt (d : float) :
  (0.10 <? d) = true -> In (get_burn_severity (Some d)) burnt_levels.
Proof.
  intros H. apply leb_of_ltb in H. unfold get_burn_severity, burnt_levels.
  destruct (0.66 <=? d); [simpl; auto|].
  destruct (0.44 <=? d); [simpl; auto|].
  destruct (0.27 <=? d); [simpl; auto|].
  rewrite H. simpl. auto.
Qed.

Lemma all_hotspots_from_burnt (features : list Feature) :
  forall (i : nat) (spots : list Hotspot),
    all_hotspots_from i features = Return spots ->
    (forall feature, In feature features ->
       exists d, prop_dNBR feature = Num d /\ (0.10 <? d) = true) ->
    List.length spots = List.length features /\
    Forall (fun spot => In (severity spot) burnt_levels) spots.
Proof.
  induction features as [|feature rest IH]; intros i spots H Hall.
  - cbn in H. injection H as <-. split; [reflexivity | constructor].
  - destruct (all_hotspots_from_cons _ _ _ _ H) as (spot & others & -> & Hs & Ho).
    destruct (IH (S i) others Ho) as (Hlen & Hrest).
    { intros f Hf. apply Hall. right. exact Hf. }
    split; [cbn; rewrite Hlen; reflexivity|].
    constructor; [|exact Hrest].
    destruct (hotspot_of_feature_return _ _ _ Hs) as (_ & Hm & _).
    destruct Hm as (_ & _ & _ & Hsev & _).
    destruct (Hall feature (or_introl eq_refl)) as (d & Hd & Hlt).
    rewrite Hsev, Hd. cbn [props_get]. apply get_burn_severity_burnt. exact Hlt.
Qed.

(** X8. With a sampler that returns only unmasked pixels with their
    values, every detection returned by the pipeline has one of the four
    burnt levels: ['Unburned or Regrowth'] and ['Unknown'] never appear. *)
Theorem extract_burn_scars_s2_burnt (gee : EarthEngine) (roi_geometry : Geometry)
    (start_date_str end_date_str : string) :
  sampler_sound gee ->
  Forall (fun spot => In (severity spot) burnt_levels)
    (extract_burn_scars_s2 gee roi_geometry start_date_str end_date_str).
Proof.
  intros Hsound. unfold extract_burn_scars_s2.
  destruct (extract_burn_scars_s2_try gee roi_geometry start_date_str
              end_date_str) as [spots|e] eqn:E; [|constructor].
  destruct (extract_burn_scars_s2_try_return _ _ _ _ _ E)
    as [-> | (a & b & c & m & features & Hs & Hall)]; [constructor|].
  apply (all_hotspots_from_burnt features 0 spots Hall).
  intros feature Hin.
  destruct (Hsound _ _ _ _ _ _ feature Hs Hin)
    as (p & d & b' & v & Hp & Hd & _).
  exists d. split; [exact Hd|].
  destruct (analysis_image_inversion _ _ _ _ _ _ _ _ Hp)
    as (_ & _ & _ & Hlt & _).
  exact Hlt.
Qed.

Lemma demo_sampler_sound : sampler_sound Demo.gee.
Proof.
  intros image region scale n tiles features feature H Hin.
  assert (E : flat_map (Demo.feature_at image) Demo.visited = features).
  { change (Return (flat_map (Demo.feature_at image) Demo.visited) =
            Return features) in H.
    congruence. }
  rewrite <- E in Hin. clear E H.
  apply in_flat_map in Hin. destruct Hin as (p & _ & Hf).
  unfold Demo.feature_at in Hf.
  destruct (image p) as [[[d b] v]|] eqn:Hp; [|destruct Hf].
  destruct Hf as [<- | []]. exists p, d, b, v. cbn. auto.
Defined.

Lemma extract_burn_scars_s2_burnt_witness :
  Forall (fun spot => In (severity spot) burnt_levels)
    (extract_burn_scars_s2 Demo.gee (GeometryOfJson Demo.polygon)
       "2023-11-01" "2023-11-15").
Proof.
  exact (extract_burn_scars_s2_burnt Demo.gee (GeometryOfJson Demo.polygon)
           "2023-11-01" "2023-11-15" demo_sampler_sound).
Defined.

(** ** Faults of the service *)

(** X9. When the sampler returns a feature with a null property, the
    pipeline returns no detection at all: the others are lost with it. *)
Theorem null_property_discards_run (gee : EarthEngine) (roi_geometry : Geometry)
    (start_date_str end_date_str : string) (features : list Feature) :
  (forall image,
      sample gee image roi_geometry sample_scale numPixels tileScale =
      Return features) ->
  existsb has_null features = true ->
  extract_burn_scars_s2 gee roi_geometry start_date_str end_date_str = [].
Proof.
  intros Hs Hnull. unfold extract_burn_scars_s2.
  destruct (extract_burn_scars_s2_try gee roi_geometry start_date_str
              end_date_str) as [spots|e] eqn:E; [|reflexivity].
  destruct (extract_burn_scars_s2_try_return _ _ _ _ _ E)
    as [-> | (a & b & c & m & features' & Hs' & Hall)]; [reflexivity|].
  rewrite Hs in Hs'. injection Hs' as <-.
  destruct (proj1 (all_hotspots_from_cases features 0) Hnull) as (e & He).
  rewrite He in Hall. discriminate.
Qed.

Lemma null_property_discards_run_witness :
  extract_burn_scars_s2 Faults.gee_null (GeometryOfJson Demo.polygon)
    "2023-11-01" "2023-11-15" = [].
Proof.
  apply (null_property_discards_run Faults.gee_null (GeometryOfJson Demo.polygon)
           "2023-11-01" "2023-11-15" [Faults.good_feature; Faults.null_feature]).
  - intros image. reflexivity.
  - reflexivity.
Defined.

(** X10. A fault of the service at any remote step of the pipeline (the
    two dates, the archive, the year, the sampler) gives the empty list of
    detections. *)
Theorem remote_fault_no_detection (gee : EarthEngine) (roi_geometry : Geometry)
    (start_date_str end_date_str : string) :
  (exists e, ee_Date gee start_date_str = Raise e) \/
  (exists e, ee_Date gee end_date_str = Raise e) \/
  (forall from to, exists e,
      s2_sr_harmonized gee roi_geometry 40 from to = Raise e) \/
  (forall date, exists e, date_year gee date = Raise e) \/
  (forall image, exists e,
      sample gee image roi_geometry sample_scale numPixels tileScale = Raise e) ->
  extract_burn_scars_s2 gee roi_geometry start_date_str end_date_str = [].
Proof.
  intros H. unfold extract_burn_scars_s2, extract_burn_scars_s2_try.
  destruct (ee_Date gee start_date_str) as [s|e0] eqn:Es; cbn [bind];
    [|reflexivity].
  destruct (ee_Date gee end_date_str) as [t|e0] eqn:Et; cbn [bind];
    [|reflexivity].
  unfold fire_windows.
  destruct (s2_sr_harmonized gee roi_geometry 40 (advance_day (-60) s)
              (advance_day (-15) s)) as [pre|e0] eqn:Epre; cbn [bind];
    [|reflexivity].
  destruct (s2_sr_harmonized gee roi_geometry 40 s t) as [post|e0] eqn:Epost;
    cbn [bind]; [|reflexivity].
  unfold analyse_collections.
  destruct ((List.length pre =? 0)%nat || (List.length post =? 0)%nat);
    [reflexivity|].
  destruct (index_rasters gee pre post) as [[d b] v].
  destruct (date_year gee s) as [y|e0] eqn:Ey; cbn [bind]; [|reflexivity].
  destruct (evaluate_mask (get_agricultural_mask gee (agri_mask_year y)))
    as [agri|e0]; cbn [bind]; [|reflexivity].
  destruct (sample gee (analysis_image d b v agri) roi_geometry
              sample_scale numPixels tileScale)
    as [features|e0] eqn:Esample; cbn [bind]; [|reflexivity].
  exfalso.
  destruct H as [(e & H) | [(e & H) | [H | [H | H]]]].
  - congruence.
  - congruence.
  - destruct (H s t) as (e & He). congruence.
  - destruct (H s) as (e & He). congruence.
  - destruct (H (analysis_image d b v agri)) as (e & He). congruence.
Qed.

Lemma remote_fault_no_detection_witness :
  extract_burn_scars_s2 Faults.gee_sample_down (GeometryOfJson Demo.polygon)
    "2023-11-01" "2023-11-15" = [].
Proof.
  apply remote_fault_no_detection.
  right. right. right. right. intros image. eexists. reflexivity.
Defined.

(** ** Outcomes of the orchestration *)

(** X11. The orchestration reports an error exactly when the region cannot
    be resolved, and then leaves the stored result as it was; once the
    region is resolved the response is a success, whatever the service does
    afterwards. *)
Theorem run_fire_detection_outcome (gee : EarthEngine)
    (current_fire_data : FireData) (request : FireDetectionRequest) :
  (forall e,
      resolve_region gee request = Raise e <->
      run_fire_detection gee current_fire_data request =
      (current_fire_data, Error e)) /\
  (forall region,
      resolve_region gee request = Return region ->
      exists current r,
        run_fire_detection gee current_fire_data request = (current, Success r)).
Proof.
  unfold run_fire_detection, run_fire_detection_try.
  destruct (resolve_region gee request) as [[[[g b] st] di]|e0]; cbn [bind].
  - split.
    + intros e. split; discriminate.
    + intros region _. eexists. eexists. reflexivity.
  - split.
    + intros e. split; intros H; injection H as <-; reflexivity.
    + intros region H. discriminate.
Qed.

(** X12. When the sampler fails after the region has been resolved, the
    caller gets a success with zero detections, an area of 0 and a maximum
    of 0.0, and the stored detections are replaced by the empty list. *)
Theorem sampler_fault_reported_as_success (gee : EarthEngine)
    (current_fire_data : FireData) (request : FireDetectionRequest)
    (roi_geometry : Geometry) (boundary : json) (st di : string) :
  resolve_region gee request = Return (roi_geometry, boundary, st, di) ->
  (forall image, exists e,
      sample gee image roi_geometry sample_scale numPixels tileScale = Raise e) ->
  exists current r,
    run_fire_detection gee current_fire_data request = (current, Success r) /\
    fire_hotspots r = 0%nat /\ fire_area_hectares r = 0 /\ max_dnbr r = 0 /\
    hotspots_geojson r = [] /\ hotspots current = [].
Proof.
  intros Hr Hs.
  assert (Hx : extract_burn_scars_s2 gee roi_geometry (start_date request)
                 (end_date request) = []).
  { unfold extract_burn_scars_s2.
    destruct (extract_burn_scars_s2_try gee roi_geometry (start_date request)
                (end_date request)) as [spots|e] eqn:E; [|reflexivity].
    destruct (extract_burn_scars_s2_try_return _ _ _ _ _ E)
      as [-> | (a & b & c & m & features & Hf & _)]; [reflexivity|].
    destruct (Hs (analysis_image a b c m)) as (e & He). congruence. }
  unfold run_fire_detection, run_fire_detection_try.
  rewrite Hr. cbn [bind]. rewrite Hx.
  eexists. eexists. split; [reflexivity|]. cbn. auto 6.
Qed.

Lemma sampler_fault_reported_as_success_witness :
  exists current r,
    run_fire_detection Faults.gee_sample_down Faults.earlier Demo.request_roi =
    (current, Success r) /\
    fire_hotspots r = 0%nat /\ fire_area_hectares r = 0 /\ max_dnbr r = 0 /\
    hotspots_geojson r = [] /\ hotspots current = [].
Proof.
  apply (sampler_fault_reported_as_success Faults.gee_sample_down Faults.earlier
           Demo.request_roi (GeometryOfJson Demo.polygon) Demo.polygon
           "Custom" "ROI").
  - reflexivity.
  - intros image. eexists. reflexivity.
Defined.

(** X13. In lookup mode (no region, a state and a district) with a
    district that the boundary dataset knows, the run completes: the boundary
    returned is the geometry of the first matching feature, the detections
    are those of the geometry of all matching features, and the state, the
    district and the date range of the request are stored. *)
Theorem lookup_mode_run (gee : EarthEngine) (current_fire_data : FireData)
    (request : FireDetectionRequest) (st di : string)
    (first : json) (others : list json) :
  truthy_dict (roi request) = false ->
  state request = Some st -> district request = Some di ->
  truthy_str (Some st) = true -> truthy_str (Some di) = true ->
  gaul_level2 gee st di = Return (first :: others) ->
  exists current r,
    run_fire_detection gee current_fire_data request = (current, Success r) /\
    boundary_geojson r = first /\
    fd_state current = st /\ fd_district current = di /\
    date_range current = start_date request ++ " to " ++ end_date request /\
    hotspots current =
    extract_burn_scars_s2 gee (CollectionGeometry (first :: others))
      (start_date request) (end_date request).
Proof.
  intros Hroi Hst Hdi Ht1 Ht2 Hg.
  unfold run_fire_detection, run_fire_detection_try, resolve_region.
  rewrite Hroi, Hst, Hdi, Ht1, Ht2. cbn [andb].
  unfold get_district_boundary. rewrite Hg. cbn [bind].
  eexists. eexists. split; [reflexivity|]. cbn. auto 6.
Qed.

Lemma lookup_mode_run_witness :
  exists current r,
    run_fire_detection Demo.gee initial_fire_data Demo.request_district =
    (current, Success r) /\
    boundary_geojson r = Demo.polygon /\
    fd_state current = "Punjab" /\ fd_district current = "Ludhiana" /\
    date_range current = "2023-11-01 to 2023-11-15" /\
    hotspots current =
    extract_burn_scars_s2 Demo.gee (CollectionGeometry [Demo.polygon])
      "2023-11-01" "2023-11-15".
Proof.
  exact (lookup_mode_run Demo.gee initial_fire_data Demo.request_district
           "Punjab" "Ludhiana" Demo.polygon []
           eq_refl eq_refl eq_refl eq_refl eq_refl eq_refl).
Defined.

(** X14. In lookup mode a failure of the boundary dataset is reported as
    the district not being found: the [try] block raises the same
    [HTTPException(404)] and the exception of the service is lost. *)
Theorem boundary_fault_reported_not_found (gee : EarthEngine)
    (request : FireDetectionRequest) (st di : string) (e : exn) :
  truthy_dict (roi request) = false ->
  state request = Some st -> district request = Some di ->
  truthy_str (Some st) = true -> truthy_str (Some di) = true ->
  gaul_level2 gee st di = Raise e ->
  get_district_boundary gee st di = BoundaryError e /\
  run_fire_detection_try gee request =
  Raise (HTTPException 404 "District not found").
Proof.
  intros Hroi Hst Hdi Ht1 Ht2 Hg.
  assert (Hb : get_district_boundary gee st di = BoundaryError e).
  { unfold get_district_boundary. rewrite Hg. reflexivity. }
  split; [exact Hb|].
  unfold run_fire_detection_try, resolve_region.
  rewrite Hroi, Hst, Hdi, Ht1, Ht2. cbn [andb]. rewrite Hb. reflexivity.
Qed.

Lemma boundary_fault_reported_not_found_witness :
  get_district_boundary Faults.gee_gaul_down "Punjab" "Ludhiana" =
  BoundaryError (OtherException "Connection reset") /\
  run_fire_detection_try Faults.gee_gaul_down Demo.request_district =
  Raise (HTTPException 404 "District not found").
Proof.
  exact (boundary_fault_reported_not_found Faults.gee_gaul_down
           Demo.request_district "Punjab" "Ludhiana"
           (OtherException "Connection reset")
           eq_refl eq_refl eq_refl eq_refl eq_refl eq_refl).
Defined.

(** X15. A region without the key ['geometry'] is not a validation error:
    the response carries the [KeyError], and the stored result is left as it
    was. *)
Theorem roi_without_geometry (gee : EarthEngine) (current_fire_data : FireData)
    (request : FireDetectionRequest) (d : dict) :
  roi request = Some d -> d <> [] -> dict_get "geometry" d = None ->
  run_fire_detection gee current_fire_data request =
  (current_fire_data, Error (KeyError "geometry")).
Proof.
  intros Hd Hne Hg.
  unfold run_fire_detection, run_fire_detection_try, resolve_region.
  rewrite Hd. destruct d as [|kv rest]; [contradiction|].
  cbn [truthy_dict]. unfold dict_getitem. rewrite Hg. reflexivity.
Qed.

Lemma roi_without_geometry_witness :
  run_fire_detection Demo.gee Faults.earlier Faults.request_no_geometry =
  (Faults.earlier, Error (KeyError "geometry")).
Proof.
  apply (roi_without_geometry Demo.gee Faults.earlier Faults.request_no_geometry
           [("type", JStr "Feature")]).
  - reflexivity.
  - discriminate.
  - reflexivity.
Defined.

(** ** Export after a run *)

(** X16. After a run that completes, the export has one row per detection
    of that run, or fails with 404 when the run found none, whatever was
    stored before; after a run that fails, the export answers as it did
    before the run. *)
Theorem export_after_run (gee : EarthEngine) (current_fire_data : FireData)
    (request : FireDetectionRequest) :
  match run_fire_detection gee current_fire_data request with
  | (current, Success r) =>
      (fire_hotspots r = 0%nat ->
       export_csv_api current = HttpError 404 "No data available to export") /\
      (fire_hotspots r <> 0%nat ->
       exists export,
         export_csv_api current = Http200 export /\
         rows export = map csv_row (map properties (hotspots_geojson r)) /\
         List.length (rows export) = fire_hotspots r)
  | (current, Error _) =>
      export_csv_api current = export_csv_api current_fire_data
  end.
Proof.
  destruct (run_fire_detection gee current_fire_data request)
    as [current [r|e]] eqn:Hrun.
  - destruct (run_fire_detection_success _ _ _ _ _ Hrun)
      as (Hcount & _ & _ & Hprops).
    unfold export_csv_api. rewrite Hprops, Hcount.
    destruct (hotspots current) as [|h t]; cbn [List.length].
    + split; [reflexivity|]. intros H. contradiction.
    + split; [discriminate|]. intros _.
      eexists. split; [reflexivity|]. cbn [rows].
      split; [reflexivity|]. rewrite length_map. reflexivity.
  - unfold run_fire_detection in Hrun.
    destruct (run_fire_detection_try gee request) as [[c r]|e0];
      [discriminate|].
    injection Hrun as <- _. reflexivity.
Qed.

(** A run that finds nothing takes the earlier detections away from the
    export; a run that fails leaves them. *)
Lemma export_after_run_examples :
  (exists export, export_csv_api Faults.earlier = Http200 export) /\
  export_csv_api
    (fst (run_fire_detection Demo.gee_no_pre Faults.earlier Demo.request_roi)) =
  HttpError 404 "No data available to export" /\
  export_csv_api
    (fst (run_fire_detection Demo.gee Faults.earlier Demo.request_neither)) =
  export_csv_api Faults.earlier.
Proof.
  split; [eexists; vm_compute; reflexivity|].
  split; vm_compute; reflexivity.
Qed.

(** ** The reference lists *)

Lemma districts_of_listed (table : list (string * list string)) (name : string) :
  In name (map fst table) <-> exists districts, districts_of table name = Some districts.
Proof.
  induction table as [|[k v] rest IH]; cbn [map fst districts_of In].
  - split; [intros [] | intros (d & H); discriminate].
  - destruct (String.eqb_spec k name) as [-> | Hne].
    + split; [eauto | auto].
    + rewrite <- IH. split; [intros [H | H]; [contradiction | exact H] | auto].
Qed.

(** X17. The districts endpoint answers 200 exactly for the states that
    the states endpoint lists, and 404 for every other name. *)
Theorem get_districts_api_listed (name : string) :
  (In name get_states_api <->
   exists districts, get_districts_api name = Http200 districts) /\
  (~ In name get_states_api <-> get_districts_api name = HttpError 404 "Not Found").
Proof.
  unfold get_states_api, get_districts_api.
  pose proof (districts_of_listed STATES_DISTRICTS name) as H.
  destruct (districts_of STATES_DISTRICTS name) as [districts|].
  - split.
    + split; [eauto | intros _; apply H; eauto].
    + split; [intros Hn; destruct Hn; apply H; eauto | discriminate].
  - split.
    + split.
      * intros Hin. apply H in Hin. destruct Hin as (d & Hd). discriminate.
      * intros (d & Hd). discriminate.
    + split; [reflexivity|].
      intros _ Hin. apply H in Hin. destruct Hin as (d & Hd). discriminate.
Qed.

(** ** Colours of the dashboard *)

(** X18. The dashboard gives the four burnt levels four different colours
    and gives ['Unburned or Regrowth'] and ['Unknown'] the same grey; the
    grades of its legend are the labels of the four burnt levels, as the
    classifier writes them. *)
Theorem getSeverityColor_levels (s1 s2 : Severity) :
  (getSeverityColor (severity_label s1) = getSeverityColor (severity_label s2) <->
   s1 = s2 \/ (~ In s1 burnt_levels /\ ~ In s2 burnt_levels)) /\
  (getSeverityColor (severity_label s1) = "#bababa" <-> ~ In s1 burnt_levels) /\
  legend_grades = map severity_label burnt_levels.
Proof.
  split; [|split; [|reflexivity]].
  - destruct s1, s2; cbn; split; intros H;
      first [ left; reflexivity
            | discriminate
            | right; split; intuition discriminate
            | reflexivity
            | (destruct H as [H | [H1 H2]]; [discriminate | exfalso; auto 6]) ].
  - destruct s1; cbn; split; intros H;
      first [ discriminate | intuition discriminate | reflexivity
            | exfalso; auto 6 ].
Qed.

(** ** Columns of the export *)

(** X19. Every key that the export reads exists in a detection: a row has
    as many cells as the header, none of them empty, in the order id,
    latitude, longitude, severity, dnbr, bai, dndvi; a key that is not one of
    the seven would give an empty cell. *)
Theorem csv_row_complete (spot : Hotspot) :
  List.length (csv_row spot) = List.length csv_header /\
  csv_row spot =
  [Some (CellInt (id spot)); Some (CellNum (latitude spot));
   Some (CellNum (longitude spot));
   Some (CellStr (severity_label (severity spot)));
   Some (CellNum (dnbr spot)); Some (CellNum (bai spot));
   Some (CellNum (dndvi spot))] /\
  Forall (fun cell => cell <> None) (csv_row spot) /\
  forall k, ~ In k csv_keys -> spot_get spot k = None.
Proof.
  split; [reflexivity|]. split; [reflexivity|]. split.
  - unfold csv_row, csv_keys. cbn. repeat constructor; discriminate.
  - intros k Hk. unfold spot_get.
    repeat match goal with
           | |- context [String.eqb k ?c] =>
               destruct (String.eqb_spec k c) as [-> | ?];
               [exfalso; apply Hk; unfold csv_keys; simpl; auto 8|]
           end.
    reflexivity.
Qed.
